(** * instapaper_to_remarkable: a shallow embedding and its properties

    The program fetches the unread Instapaper bookmarks, renders each new
    one to a PDF and uploads it with rmapi, remembering delivered ids in a
    JSON ledger.  This file embeds [src/instapaper_to_remarkable.py] and
    proves (or refutes) the statements its specification makes about it.

    Layout: Part I holds the definitions (Python strings and the two
    regular-expression idioms the program uses, the outside world as a
    record of oracles, a state-and-exception monad, then the program's
    functions in source order).  Part II holds the lemmas and theorems. *)

From Stdlib Require Import Ascii String.
From stdpp Require Import gmap strings list pretty.
From Equations Require Import Equations.

Open Scope N_scope.

(* ===================================================================== *)
(** * Part I: definitions                                                 *)
(* ===================================================================== *)

(** ** Python strings

    A Python [str] is a sequence of Unicode code points; slicing and the
    [re] module count code points, not bytes. *)

Abbreviation str := (list N).

(** An ASCII literal as code points. *)
Definition lit (s : string) : str := N_of_ascii <$> String.list_ascii_of_string s.
Arguments lit : simpl never.

Module Py.

(** [str.isspace] on one code point, which is also what [\s] matches in a
    [str] pattern: both go through [Py_UNICODE_ISSPACE].  The ranges are
    U+0009..U+000D, U+001C..U+0020, U+0085, U+00A0, U+1680,
    U+2000..U+200A, U+2028, U+2029, U+202F, U+205F, U+3000. *)
Definition isspace (c : N) : bool :=
  ((9 <=? c) && (c <=? 13)) || ((28 <=? c) && (c <=? 32))
  || (c =? 133) || (c =? 160) || (c =? 5760)
  || ((8192 <=? c) && (c <=? 8202))
  || (c =? 8232) || (c =? 8233) || (c =? 8239) || (c =? 8287)
  || (c =? 12288).

(** [0-9A-Za-z]. *)
Definition ascii_alnum (c : N) : bool :=
  ((48 <=? c) && (c <=? 57)) || ((65 <=? c) && (c <=? 90))
  || ((97 <=? c) && (c <=? 122)).

(** [s.lstrip()], [s.rstrip()], [s.strip()] with no argument. *)
Fixpoint lstrip (s : str) : str :=
  match s with
  | c :: r => if isspace c then lstrip r else s
  | [] => []
  end.

Definition rstrip (s : str) : str := reverse (lstrip (reverse s)).

Definition strip (s : str) : str := rstrip (lstrip s).

(** [bool(s)] of a string: non-empty. *)
Definition truthy (s : str) : bool :=
  match s with [] => false | _ :: _ => true end.

(** [s.startswith(p)]. *)
Fixpoint startswith (p s : str) : bool :=
  match p, s with
  | [], _ => true
  | a :: p', b :: s' => (a =? b) && startswith p' s'
  | _ :: _, [] => false
  end.

(** [re.sub(cls, repl, s)] when [cls] is a one-character class: every
    character of the class is a match of its own. *)
Definition re_sub_class (cls : N → bool) (repl : str) (s : str) : str :=
  c ← s; if cls c then repl else [c].

(** [re.sub(cls+, repl, s)]: a maximal run of characters of the class is
    one match (the quantifier is greedy and matches do not overlap).
    [in_run] tells that the previous character belonged to a run whose
    replacement has already been emitted. *)
Fixpoint re_sub_class_plus_from (cls : N → bool) (repl : str)
         (in_run : bool) (s : str) : str :=
  match s with
  | [] => []
  | c :: r =>
      if cls c
      then (if in_run then [] else repl)
             ++ re_sub_class_plus_from cls repl true r
      else c :: re_sub_class_plus_from cls repl false r
  end.

Definition re_sub_class_plus (cls : N → bool) (repl s : str) : str :=
  re_sub_class_plus_from cls repl false s.

(** [\w] in a [str] pattern: [c.isalnum() or c == '_'].  Above U+007F
    [isalnum] reads the Unicode database, which is taken as the parameter
    [alnum_hi]; it is never consulted on an ASCII character. *)
Definition is_word (alnum_hi : N → bool) (c : N) : bool :=
  (c =? 95) || (if c <? 128 then ascii_alnum c else alnum_hi c).

(** [\b] right after a word character: the text ends here or goes on
    with a non-word character. *)
Definition boundary_after_word (alnum_hi : N → bool) (rest : str) : bool :=
  match rest with
  | [] => true
  | d :: _ => negb (is_word alnum_hi d)
  end.

(** Does the literal [pat], followed by [\b] when [bnd] is set, match at
    the start of [s]?  ([bnd] is only used with a pattern that ends in a
    word character.) *)
Definition match_here (alnum_hi : N → bool) (pat : str) (bnd : bool)
           (s : str) : bool :=
  startswith pat s
  && (if bnd then boundary_after_word alnum_hi (drop (length pat) s)
      else true).

(** [re.sub(pat, repl, s)] for a non-empty literal pattern [p0 :: pat]
    (optionally followed by [\b]): scan from the left; at a match emit
    [repl] and resume right after the match, otherwise copy one
    character. *)
Equations? re_sub_literal (alnum_hi : N → bool) (p0 : N) (pat : str)
           (bnd : bool) (repl : str) (s : str) : str by wf (length s) lt :=
  re_sub_literal alnum_hi p0 pat bnd repl [] := [];
  re_sub_literal alnum_hi p0 pat bnd repl (c :: r)
    with match_here alnum_hi (p0 :: pat) bnd (c :: r) => {
    | true := repl ++ re_sub_literal alnum_hi p0 pat bnd repl
                        (drop (length pat) r);
    | false := c :: re_sub_literal alnum_hi p0 pat bnd repl r }.
Proof. all: rewrite ?length_drop; simpl; lia. Qed.

(** [sep.join(l)]. *)
Fixpoint join (sep : str) (l : list str) : str :=
  match l with
  | [] => []
  | [x] => x
  | x :: r => x ++ sep ++ join sep r
  end.

(** [os.path.join(a, b)] on POSIX: an absolute [b] discards [a]; a
    separator is inserted unless [a] is empty or already ends with one. *)
Definition path_join (a b : str) : str :=
  if startswith (lit "/") b then b
  else if bool_decide (a = []) || bool_decide (last a = Some 47) then a ++ b
  else a ++ lit "/" ++ b.

(** [pathlib.PurePosixPath.parent] on a normalised path: the text before
    the last separator; ["/"] above a top-level name, ["."] when there is
    no separator. *)
Fixpoint after_sep (s : str) : str :=
  match s with
  | [] => []
  | c :: r => if c =? 47 then r else after_sep r
  end.

Definition parent (p : str) : str :=
  let cut := reverse (after_sep (reverse p)) in
  if bool_decide (47 ∈ p)
  then (if truthy cut then cut else lit "/")
  else lit ".".

(** [q] is [d] itself or lies below the directory [d]. *)
Definition under (d q : str) : bool :=
  bool_decide (q = d) || startswith (d ++ lit "/") q.

End Py.

(** ** [sanitize_filename] (source lines 179-182) *)

(** The character class of the first substitution, by code point:
    [<] 60, [>] 62, [:] 58, double quote 34, [/] 47, backslash 92,
    [|] 124, [?] 63, [*] 42. *)
Definition forbidden_chars : str := [60; 62; 58; 34; 47; 92; 124; 63; 42].

Definition forbidden (c : N) : bool := bool_decide (c ∈ forbidden_chars).

Definition sanitize_filename (title : str) : str :=
  let name := Py.re_sub_class forbidden [] title in
  let name := Py.strip (Py.re_sub_class_plus Py.isspace (lit " ") name) in
  if Py.truthy name then take 120 name else lit "untitled".


(** ** Exceptions and results

    [except Exception] catches the classes derived from [Exception];
    [SystemExit] (raised by [sys.exit]) and [KeyboardInterrupt] derive from
    [BaseException] only and pass through it. *)

Inductive exn :=
| Exception (cls : string)
| SystemExit (code : Z)
| KeyboardInterrupt.

Definition is_Exception (e : exn) : bool :=
  match e with Exception _ => true | _ => false end.

Inductive result (A : Type) :=
| Ret (a : A)
| Raise (e : exn).
Arguments Ret {A} a.
Arguments Raise {A} e.

Definition raised {A} (r : result A) : option exn :=
  match r with Ret _ => None | Raise e => Some e end.

(** ** Data model *)

(** A bookmark id as JSON delivers it: a number or a string. *)
Inductive jid :=
| IdInt (z : Z)
| IdStr (s : str).

(** [str(id)]. *)
Definition py_str (i : jid) : str :=
  match i with
  | IdInt z => lit (pretty z)
  | IdStr s => s
  end.

(** A record of the listing tagged "bookmark".  The program subscripts
    [bookmark_id] and reads [title] and [url] with [.get]. *)
Record bookmark := {
  bookmark_id : jid;
  title : option str;
  url : option str;
}.

(** An element of the listing: a bookmark, or a record with some other
    [type] (or none), such as the user and meta records. *)
Inductive listed :=
| RBookmark (b : bookmark)
| ROther (type : option str).

Record config := {
  consumer_key : str;
  consumer_secret : str;
  username : str;
  password : str;
  remarkable_folder : str;
  batch_size : Z;
  processed_log : str;
}.

(** [OAuth1Session]: the client credentials and, after xAuth, the token. *)
Record session := {
  client_key : str;
  client_secret : str;
  resource_owner : option (str * str);
}.

(** What the program reads of an HTTP response; [json] is [resp.json()]
    seen as a list of records, and may raise. *)
Record response := {
  status_code : Z;
  text : str;
  json : result (list listed);
}.

(** [subprocess.CompletedProcess]. *)
Record completed := {
  returncode : Z;
  stdout : str;
  stderr : str;
}.

(** The ledger: item id to timestamp (a JSON object of strings). *)
Abbreviation ledger := (gmap str str).

(** Arguments of a log line or fields of a form. *)
Inductive arg :=
| AStr (s : str)
| AInt (z : Z).

Inductive level := INFO | WARNING | ERROR.

(** ** The outside world

    Everything the program does not compute itself is an oracle.  An oracle
    that can answer differently from one call to the next takes the time of
    the call (a counter of the calls made so far) as its first argument. *)
Record Env := {
  (** [os.getenv] once [load_dotenv] has run *)
  getenv : str → option str;
  (** [int(s)]; [None] is [ValueError] *)
  py_int : str → option Z;
  (** [Path(os.path.expanduser(s))], as a normalised path *)
  expand_path : str → str;
  (** [shutil.which] *)
  which : str → option str;
  (** [session.post(url, data=...)] *)
  http_post : nat → session → str → list (str * arg) → result response;
  (** [urllib.parse.parse_qs] *)
  parse_qs : str → gmap str (list str);
  (** [trafilatura.fetch_url] *)
  fetch_url : nat → str → result (option str);
  (** [trafilatura.extract(html, output_format="html", ...)] *)
  extract : nat → str → result (option str);
  (** [HTML(string=html, base_url=url).write_pdf(out)]: the bytes written *)
  write_pdf : nat → str → str → str → result str;
  (** [subprocess.run(argv, capture_output=True)] *)
  run : nat → list str → result completed;
  (** [datetime.now(timezone.utc).isoformat()] *)
  utcnow_iso : nat → str;
  (** [tempfile.mkdtemp(prefix=...)]: the directory it creates *)
  mkdtemp : nat → str → str;
  (** [json.loads] of a ledger file; [None] is [JSONDecodeError] *)
  json_loads : str → option ledger;
  (** [json.dumps(d, indent=2)] *)
  json_dumps : ledger → str;
  (** [str.isalnum] above U+007F *)
  alnum_hi : N → bool;
}.

(** ** Program state *)

Inductive node :=
| File (content : str)
| Dir.

(** What the program does to the world, with the answer it got. *)
Inductive event :=
| EvLog (lvl : level) (fmt : string) (args : list arg) (exc_info : bool)
| EvPost (url : str) (data : list (str * arg)) (r : result response)
| EvFetchUrl (url : str) (r : result (option str))
| EvExtract (html : str) (r : result (option str))
| EvWritePdf (html base_url out : str) (r : result str)
| EvRun (argv : list str) (r : result completed)
| EvSetItem (key value : str)
| EvWriteText (path content : str)
| EvMkdtemp (dir : str)
| EvRmtree (dir : str).

(** - [fs]: the file system, path to node;
    - [clock]: number of oracle calls made so far;
    - [processed]: the dict object bound to [main]'s local [processed]
      (mutated in place by [processed[bid] = ...]);
    - [cur]: [main]'s loop variable [bookmark], unbound before the loop;
    - [trace]: the events so far, oldest first, each with the value of the
      loop variable at the time. *)
Record state := {
  fs : gmap str node;
  clock : nat;
  processed : ledger;
  cur : option bookmark;
  trace : list (option bookmark * event);
}.

(** A run starts on some file system with nothing done yet. *)
Definition boot (fs0 : gmap str node) : state :=
  {| fs := fs0; clock := 0; processed := ∅; cur := None; trace := [] |}.

(** ** The monad: state that survives exceptions *)

Definition M (A : Type) : Type := state → result A * state.

Definition ret {A} (a : A) : M A := λ w, (Ret a, w).

Definition raise {A} (e : exn) : M A := λ w, (Raise e, w).

Definition bind {A B} (c : M A) (k : A → M B) : M B :=
  λ w, match c w with
       | (Ret a, w') => k a w'
       | (Raise e, w') => (Raise e, w')
       end.

Notation "'let*' x ':=' c 'in' k" := (bind c (λ x, k))
  (at level 10, x pattern, c at level 100, k at level 200,
   format "'[v' 'let*'  x  ':='  c  'in' '/' k ']'").

Notation "c ';;;' k" := (bind c (λ _, k))
  (at level 100, k at level 200, right associativity,
   format "'[v' c  ';;;' '/' k ']'").

(** [try: body  except Exception: handler] *)
Definition try_except {A} (body : M A) (handler : exn → M A) : M A :=
  λ w, match body w with
       | (Raise e, w') =>
           if is_Exception e then handler e w' else (Raise e, w')
       | done => done
       end.

(** [try: body  finally: final] *)
Definition try_finally {A} (body : M A) (final : M unit) : M A :=
  λ w, match body w with
       | (r, w') =>
           match final w' with
           | (Ret _, w'') => (r, w'')
           | (Raise e, w'') => (Raise e, w'')
           end
       end.

(** [for x in l: body] *)
Fixpoint for_each {A} (l : list A) (body : A → M unit) : M unit :=
  match l with
  | [] => ret tt
  | x :: r => body x ;;; for_each r body
  end.

Definition of_result {A} (r : result A) : M A := λ w, (r, w).

Definition emit (e : event) : M unit :=
  λ w, (Ret tt,
        {| fs := fs w; clock := clock w; processed := processed w;
           cur := cur w; trace := trace w ++ [(cur w, e)] |}).

(** An oracle call: read the time, let it advance, record the call. *)
Definition ask {A} (answer : nat → A) (ev : A → event) : M A :=
  λ w, let a := answer (clock w) in
       (Ret a,
        {| fs := fs w; clock := S (clock w); processed := processed w;
           cur := cur w; trace := trace w ++ [(cur w, ev a)] |}).

Definition call {A} (answer : nat → result A) (ev : result A → event) : M A :=
  let* r := ask answer ev in of_result r.

Definition set_fs (f : gmap str node → gmap str node) : M unit :=
  λ w, (Ret tt,
        {| fs := f (fs w); clock := clock w; processed := processed w;
           cur := cur w; trace := trace w |}).

Definition set_processed (f : ledger → ledger) : M unit :=
  λ w, (Ret tt,
        {| fs := fs w; clock := clock w; processed := f (processed w);
           cur := cur w; trace := trace w |}).

Definition set_cur (b : bookmark) : M unit :=
  λ w, (Ret tt,
        {| fs := fs w; clock := clock w; processed := processed w;
           cur := Some b; trace := trace w |}).

Definition get_fs : M (gmap str node) := λ w, (Ret (fs w), w).

Definition get_processed : M ledger := λ w, (Ret (processed w), w).

(** [log.info], [log.warning], [log.error], [log.exception]. *)
Definition log_info (fmt : string) (args : list arg) : M unit :=
  emit (EvLog INFO fmt args false).
Definition log_warning (fmt : string) (args : list arg) : M unit :=
  emit (EvLog WARNING fmt args false).
Definition log_error (fmt : string) (args : list arg) : M unit :=
  emit (EvLog ERROR fmt args false).
Definition log_exception (fmt : string) (args : list arg) : M unit :=
  emit (EvLog ERROR fmt args true).

(** [sys.exit(code)] *)
Definition sys_exit {A} (code : Z) : M A := raise (SystemExit code).

(** ** The program *)

Definition INSTAPAPER_API : str := lit "https://www.instapaper.com".
Arguments INSTAPAPER_API : simpl never.

Definition EREADER_CSS : str := lit
"@page {
    size: A5;
    margin: 1.5cm;
}
body {
    font-family: Georgia, 'Times New Roman', serif;
    font-size: 11pt;
    line-height: 1.6;
    color: #000;
}
h1 { font-size: 16pt; margin-bottom: 0.5em; }
h2 { font-size: 14pt; }
h3 { font-size: 12pt; }
img { max-width: 100%; height: auto; }
a { color: #000; text-decoration: underline; }
pre, code { font-size: 9pt; overflow-wrap: break-word; }
blockquote { border-left: 2px solid #666; padding-left: 0.8em; margin-left: 0; }
".

(** [HTML_TEMPLATE.format(css=css, content=content)]; code point 34 is the
    double quote around the charset. *)
Definition HTML_TEMPLATE_format (css content : str) : str :=
  lit "<!DOCTYPE html>
<html>
<head>
<meta charset=" ++ [34] ++ lit "utf-8" ++ [34] ++ lit ">
<style>" ++ css ++ lit "</style>
</head>
<body>
" ++ content ++ lit "
</body>
</html>
".

Section Program.

Context (env : Env).

(** *** [load_config] (lines 83-109) *)

Definition required : list str :=
  [lit "INSTAPAPER_CONSUMER_KEY"; lit "INSTAPAPER_CONSUMER_SECRET";
   lit "INSTAPAPER_USERNAME"; lit "INSTAPAPER_PASSWORD"].

(** [os.getenv(k, dflt)] *)
Definition getenv_or (k dflt : str) : str := default dflt (getenv env k).

(** [os.environ[k]] *)
Definition environ (k : str) : M str :=
  match getenv env k with
  | Some v => ret v
  | None => raise (Exception "KeyError")
  end.

(** [int(s)] *)
Definition int (s : str) : M Z :=
  match py_int env s with
  | Some z => ret z
  | None => raise (Exception "ValueError")
  end.

Definition load_config : M config :=
  let missing :=
    filter (λ k, Py.truthy (getenv_or k []) = false) required in
  if bool_decide (missing = []) then
    let* ck := environ (lit "INSTAPAPER_CONSUMER_KEY") in
    let* cs := environ (lit "INSTAPAPER_CONSUMER_SECRET") in
    let* un := environ (lit "INSTAPAPER_USERNAME") in
    let* pw := environ (lit "INSTAPAPER_PASSWORD") in
    let* bs := int (getenv_or (lit "BATCH_SIZE") (lit "25")) in
    ret {| consumer_key := ck; consumer_secret := cs;
           username := un; password := pw;
           remarkable_folder :=
             getenv_or (lit "REMARKABLE_FOLDER") (lit "/Instapaper");
           batch_size := bs;
           processed_log :=
             expand_path env
               (getenv_or (lit "PROCESSED_LOG")
                  (lit "~/.instapaper_to_remarkable_processed.json")) |}
  else
    log_error "Missing env vars: %s. See config.example.env"
      [AStr (Py.join (lit ", ") missing)] ;;;
    sys_exit 1%Z.

(** *** [check_rmapi] (lines 112-118) *)

Definition check_rmapi : M unit :=
  match which env (lit "rmapi") with
  | Some (_ :: _) => ret tt
  | _ =>
      log_error
        "rmapi not found. Install via: brew install ddvk/tap/rmapi or download from https://github.com/ddvk/rmapi/releases"
        [] ;;;
      sys_exit 1%Z
  end.

(** *** [instapaper_auth] (lines 121-151) *)

(** [session.post(url, data=data)] *)
Definition post (s : session) (u : str) (data : list (str * arg))
  : M response :=
  call (λ t, http_post env t s u data) (EvPost u data).

(** [creds[k][0]] *)
Definition first_of (creds : gmap str (list str)) (k : str) : M str :=
  match creds !! k with
  | None => raise (Exception "KeyError")
  | Some [] => raise (Exception "IndexError")
  | Some (v :: _) => ret v
  end.

Definition instapaper_auth (cfg : config) : M session :=
  let s := {| client_key := consumer_key cfg;
              client_secret := consumer_secret cfg;
              resource_owner := None |} in
  let* resp := post s (INSTAPAPER_API ++ lit "/api/1/oauth/access_token")
                 [(lit "x_auth_username", AStr (username cfg));
                  (lit "x_auth_password", AStr (password cfg));
                  (lit "x_auth_mode", AStr (lit "client_auth"))] in
  if bool_decide (status_code resp ≠ 200%Z) then
    log_error "Instapaper auth failed (%s): %s"
      [AInt (status_code resp); AStr (text resp)] ;;;
    sys_exit 1%Z
  else
    let creds := parse_qs env (text resp) in
    let* token := first_of creds (lit "oauth_token") in
    let* token_secret := first_of creds (lit "oauth_token_secret") in
    ret {| client_key := consumer_key cfg;
           client_secret := consumer_secret cfg;
           resource_owner := Some (token, token_secret) |}.

(** *** [fetch_bookmarks] (lines 154-165) *)

Definition is_bookmark (r : listed) : option bookmark :=
  match r with
  | RBookmark b => Some b
  | ROther _ => None
  end.

Definition fetch_bookmarks (s : session) (limit : Z) : M (list bookmark) :=
  let* resp := post s (INSTAPAPER_API ++ lit "/api/1/bookmarks/list")
                 [(lit "folder_id", AStr (lit "unread"));
                  (lit "limit", AInt limit)] in
  if bool_decide (status_code resp ≠ 200%Z) then
    log_error "Failed to fetch bookmarks (%s): %s"
      [AInt (status_code resp); AStr (text resp)] ;;;
    ret []
  else
    let* data := of_result (json resp) in
    ret (omap is_bookmark data).

(** *** [load_processed] (lines 168-171)

    [path.exists()] holds of a file or a directory; [read_text] of a
    directory raises. *)
Definition load_processed (path : str) : M ledger :=
  let* files := get_fs in
  match files !! path with
  | Some (File content) =>
      match json_loads env content with
      | Some d => ret d
      | None => raise (Exception "JSONDecodeError")
      end
  | Some Dir => raise (Exception "IsADirectoryError")
  | None => ret ∅
  end.

(** *** [save_processed] (lines 174-176)

    [mkdir(parents=True, exist_ok=True)] leaves an existing node alone
    (the ancestors above the parent are not tracked); the writes
    themselves always succeed in this model. *)
Definition mkdir_parents (d : str) : M unit :=
  set_fs (λ files, match files !! d with
                   | None => <[d := Dir]> files
                   | Some _ => files
                   end).

Definition write_text (path content : str) : M unit :=
  emit (EvWriteText path content) ;;;
  set_fs (λ files, <[path := File content]> files).

Definition save_processed (path : str) (d : ledger) : M unit :=
  mkdir_parents (Py.parent path) ;;;
  write_text path (json_dumps env d).

(** *** [article_to_pdf] (lines 185-211) *)

(** [not x] for a value that is [None] or a string. *)
Definition falsy (x : option str) : bool :=
  match x with
  | Some (_ :: _) => false
  | _ => true
  end.

(** Lines 203-204: the two substitutions on the extracted markup. *)
Definition normalize_graphic (content : str) : str :=
  let content :=
    Py.re_sub_literal (alnum_hi env) 60 (lit "graphic") true (lit "<img")
      content in
  Py.re_sub_literal (alnum_hi env) 60 (lit "/graphic>") false [] content.

Definition article_to_pdf (title url output_path : str) : M bool :=
  let* html := call (λ t, fetch_url env t url) (EvFetchUrl url) in
  if falsy html then
    log_warning "Could not fetch HTML for: %s" [AStr url] ;;;
    ret false
  else
    let html := default [] html in
    let* content := call (λ t, extract env t html) (EvExtract html) in
    if falsy content then
      log_warning "Could not extract content for: %s" [AStr url] ;;;
      ret false
    else
      let content := normalize_graphic (default [] content) in
      let full_html := HTML_TEMPLATE_format EREADER_CSS content in
      let* pdf := call (λ t, write_pdf env t full_html url output_path)
                    (EvWritePdf full_html url output_path) in
      set_fs (λ files, <[output_path := File pdf]> files) ;;;
      ret true.

(** *** [upload_to_remarkable] (lines 214-227) *)

Definition subprocess_run (argv : list str) : M completed :=
  call (λ t, run env t argv) (EvRun argv).

Definition put_argv (pdf_path folder : str) : list str :=
  [lit "rmapi"; lit "put"; lit "--force"; pdf_path; folder].

Definition upload_to_remarkable (pdf_path folder : str) : M bool :=
  subprocess_run [lit "rmapi"; lit "mkdir"; folder] ;;;
  let* result := subprocess_run (put_argv pdf_path folder) in
  if bool_decide (returncode result ≠ 0%Z) then
    log_error "rmapi upload failed: %s %s"
      [AStr (stdout result); AStr (stderr result)] ;;;
    ret false
  else ret true.

(** *** [main] (lines 230-277) *)

(** [tempfile.mkdtemp(prefix=prefix)] *)
Definition tempfile_mkdtemp (prefix : str) : M str :=
  let* d := ask (λ t, mkdtemp env t prefix) EvMkdtemp in
  set_fs (λ files, <[d := Dir]> files) ;;;
  ret d.

(** [shutil.rmtree(d, ignore_errors=True)] *)
Definition rmtree (d : str) : M unit :=
  emit (EvRmtree d) ;;;
  set_fs (filter (λ kv, Py.under d kv.1 = false)).

(** [processed[key] = value] *)
Definition setitem (key value : str) : M unit :=
  emit (EvSetItem key value) ;;;
  set_processed (λ d, <[key := value]> d).

Definition now_iso : M str :=
  λ w, (Ret (utcnow_iso env (clock w)),
        {| fs := fs w; clock := S (clock w); processed := processed w;
           cur := cur w; trace := trace w |}).

(** Lines 231-238: configuration, authentication and listing. *)
Definition main_listing : M (config * list bookmark) :=
  let* cfg := load_config in
  check_rmapi ;;;
  log_info "Authenticating with Instapaper..." [] ;;;
  let* s := instapaper_auth cfg in
  log_info "Fetching unread bookmarks..." [] ;;;
  let* bookmarks := fetch_bookmarks s (batch_size cfg) in
  ret (cfg, bookmarks).

(** Line 244: the bookmarks whose id is not a key of the ledger. *)
Definition new_bookmarks (bookmarks : list bookmark) (d : ledger)
  : list bookmark :=
  filter (λ b, d !! py_str (bookmark_id b) = None) bookmarks.

(** Lines 253-273: one turn of the loop. *)
Definition main_item (cfg : config) (tmpdir : str) (b : bookmark) : M unit :=
  set_cur b ;;;
  let bid := py_str (bookmark_id b) in
  let title := default (lit "Untitled") (title b) in
  let url := default [] (url b) in
  log_info "Processing: %s" [AStr title] ;;;
  let filename := sanitize_filename title ++ lit ".pdf" in
  let pdf_path := Py.path_join tmpdir filename in
  try_except
    (let* ok := article_to_pdf title url pdf_path in
     if negb ok then ret tt
     else
       let* up := upload_to_remarkable pdf_path (remarkable_folder cfg) in
       if up then
         let* ts := now_iso in
         setitem bid ts ;;;
         let* d := get_processed in
         save_processed (processed_log cfg) d ;;;
         log_info "Uploaded: %s" [AStr title]
       else
         log_error "Upload failed, will retry next run: %s" [AStr title])
    (λ _, log_exception "Error processing bookmark %s (%s)"
            [AStr bid; AStr title]).

(** Lines 243-277: what [main] does with a non-empty listing. *)
Definition main_batch (cfg : config) (bookmarks : list bookmark) : M unit :=
  let* d := load_processed (processed_log cfg) in
  set_processed (λ _, d) ;;;
  let new := new_bookmarks bookmarks d in
  if bool_decide (new = []) then
    log_info "No new bookmarks to process." []
  else
    log_info "Processing %d new bookmark(s)..." [AInt (Z.of_nat (length new))] ;;;
    let* tmpdir := tempfile_mkdtemp (lit "instapaper_") in
    try_finally (for_each new (main_item cfg tmpdir)) (rmtree tmpdir) ;;;
    let* d := get_processed in
    log_info "Done. Processed %d bookmark(s)." [AInt (Z.of_nat (size d))].

Definition main : M unit :=
  let* (cfg, bookmarks) := main_listing in
  if bool_decide (bookmarks = []) then log_info "No bookmarks found." []
  else main_batch cfg bookmarks.

End Program.

(** ** A small world to run the program in

    Three bookmarks are listed: 1 is already in the ledger, 2 and 3 are
    new.  [make] builds the world from what varies between the examples:
    the fetcher, the uploader and the JSON reader. *)
Module Demo.

Definition b1 : bookmark :=
  {| bookmark_id := IdInt 1; title := Some (lit "One");
     url := Some (lit "u1") |}.
Definition b2 : bookmark :=
  {| bookmark_id := IdInt 2; title := Some (lit "Two");
     url := Some (lit "u2") |}.
Definition b3 : bookmark :=
  {| bookmark_id := IdInt 3; title := Some (lit "A/B:  three ");
     url := Some (lit "u3") |}.

Definition ledger_path : str := lit "/home/u/ledger.json".

Definition old_ledger : ledger :=
  {[ lit "1" := lit "2026-01-01T00:00:00+00:00" ]}.

Definition listing : list listed :=
  [ROther (Some (lit "user")); RBookmark b1; RBookmark b2; RBookmark b3].

Definition ok : completed :=
  {| returncode := 0; stdout := []; stderr := [] |}.

Definition make (status : Z)
           (fetch : nat → str → result (option str))
           (runner : nat → list str → result completed)
           (loads : str → option ledger) : Env :=
  {| getenv := λ k,
       if bool_decide (k ∈ required) then Some (lit "x") else None;
     py_int := λ _, Some 25%Z;
     expand_path := λ _, ledger_path;
     which := λ _, Some (lit "/usr/bin/rmapi");
     http_post := λ t _ _ _,
       Ret {| status_code := match t with O => 200%Z | _ => status end;
              text := lit "oauth_token=a&oauth_token_secret=b";
              json := Ret listing |};
     parse_qs := λ _, {[ lit "oauth_token" := [lit "a"];
                         lit "oauth_token_secret" := [lit "b"] ]};
     fetch_url := fetch;
     extract := λ _ _, Ret (Some (lit "<p>x</p><graphic src=a></graphic>"));
     write_pdf := λ _ _ _ _, Ret (lit "%PDF");
     run := runner;
     utcnow_iso := λ _, lit "2026-11-04T00:00:00+00:00";
     mkdtemp := λ _ prefix, lit "/tmp/" ++ prefix ++ lit "x";
     json_loads := loads;
     json_dumps := λ _, lit "{}";
     alnum_hi := λ _, false |}.

(** The fetch of [u2] times out; everything else works. *)
Definition env : Env :=
  make 200
    (λ _ u, if bool_decide (u = lit "u2") then Raise (Exception "Timeout")
            else Ret (Some (lit "<html>")))
    (λ _ _, Ret ok)
    (λ _, Some old_ledger).

(** The user interrupts the program during the fetch of [u2]. *)
Definition env_interrupted : Env :=
  make 200
    (λ _ u, if bool_decide (u = lit "u2") then Raise KeyboardInterrupt
            else Ret (Some (lit "<html>")))
    (λ _ _, Ret ok)
    (λ _, Some old_ledger).

(** The ledger file does not hold JSON. *)
Definition env_corrupt : Env :=
  make 200 (λ _ _, Ret (Some (lit "<html>"))) (λ _ _, Ret ok) (λ _, None).

(** The listing call is answered with status 503. *)
Definition env_unavailable : Env :=
  make 503 (λ _ _, Ret (Some (lit "<html>"))) (λ _ _, Ret ok)
    (λ _, Some old_ledger).

Definition fs0 : gmap str node := {[ ledger_path := File (lit "{}") ]}.

(** The configuration these worlds give, and their temporary directory. *)
Definition cfg : config :=
  {| consumer_key := lit "x"; consumer_secret := lit "x";
     username := lit "x"; password := lit "x";
     remarkable_folder := lit "/Instapaper"; batch_size := 25;
     processed_log := ledger_path |}.

Definition tmpdir : str := lit "/tmp/instapaper_x".

(** The state the listing phase leaves in [env]. *)
Definition listed_state : state := (main_listing env (boot fs0)).2.

(** An authenticated session, the answer of a server that is down, and a
    state in which the next call is the second one. *)
Definition sess : session :=
  {| client_key := lit "x"; client_secret := lit "x";
     resource_owner := Some (lit "a", lit "b") |}.

Definition resp503 : response :=
  {| status_code := 503; text := lit "oauth_token=a&oauth_token_secret=b";
     json := Ret listing |}.

Definition second_call : state :=
  {| fs := fs0; clock := 1; processed := ∅; cur := None; trace := [] |}.

(** An image as the extraction library writes it. *)
Definition markup : str := lit "<p>x</p><graphic src=a></graphic>".

(** 119 letters, a space and one more letter. *)
Definition long_title : str := replicate 119 97 ++ lit " b".

End Demo.

(** ** Vocabulary of the statements *)

(** Whitespace is collapsed in [s]: every whitespace character is a plain
    space and no two of them are adjacent ([prev_ws]: the character before
    [s] was whitespace). *)
Fixpoint collapsed (prev_ws : bool) (s : str) : bool :=
  match s with
  | [] => true
  | c :: r =>
      if Py.isspace c then (c =? 32) && negb prev_ws && collapsed true r
      else collapsed false r
  end.

(** [s] neither starts nor ends with whitespace. *)
Definition trimmed (s : str) : Prop :=
  (∀ c, head s = Some c → Py.isspace c = false)
  ∧ (∀ c, last s = Some c → Py.isspace c = false).

(** The output of a [re.sub] with a literal pattern, as a relation: the
    text is copied, except that some occurrences of [pat] are replaced by
    [repl]. *)
Inductive lit_rewrite (pat repl : str) : str → str → Prop :=
| lr_nil : lit_rewrite pat repl [] []
| lr_keep c s t :
    lit_rewrite pat repl s t → lit_rewrite pat repl (c :: s) (c :: t)
| lr_sub s t :
    lit_rewrite pat repl s t → lit_rewrite pat repl (pat ++ s) (repl ++ t).

Definition OPEN_GRAPHIC : str := Eval vm_compute in lit "<graphic".
Definition OPEN_IMG : str := Eval vm_compute in lit "<img".
Definition CLOSE_GRAPHIC : str := Eval vm_compute in lit "</graphic>".


(** What the two substitutions can do to a text: turn an opening
    [<graphic] into [<img] (what follows it, the attributes, is copied),
    drop a closing tag of [graphic], copy everything else. *)
Inductive graphic_rewrite : str → str → Prop :=
| gr_nil : graphic_rewrite [] []
| gr_keep c s t : graphic_rewrite s t → graphic_rewrite (c :: s) (c :: t)
| gr_open s t :
    graphic_rewrite s t → graphic_rewrite (OPEN_GRAPHIC ++ s) (OPEN_IMG ++ t)
| gr_close s t :
    graphic_rewrite s t → graphic_rewrite (CLOSE_GRAPHIC ++ s) t.

(** *** Events of a run *)

(** An event with the value of the loop variable when it happened. *)
Abbreviation tev := (option bookmark * event)%type.

(** The four stages of processing an item: fetch, extract, render, and
    the calls of the upload tool. *)
Definition is_item_call (e : event) : bool :=
  match e with
  | EvFetchUrl _ _ | EvExtract _ _ | EvWritePdf _ _ _ _ | EvRun _ _ => true
  | _ => false
  end.

(** The exception an outside call answered with, if it did. *)
Definition answer_raised (e : event) : option exn :=
  match e with
  | EvPost _ _ r => raised r
  | EvFetchUrl _ r => raised r
  | EvExtract _ r => raised r
  | EvWritePdf _ _ _ r => raised r
  | EvRun _ r => raised r
  | _ => None
  end.

(** A successful delivery: [rmapi put] came back with exit code 0. *)
Definition successful_put (e : event) : Prop :=
  ∃ pdf folder c, e = EvRun (put_argv pdf folder) (Ret c) ∧ returncode c = 0%Z.

(** The log lines of the loop. *)
Definition log_processing (b : bookmark) : event :=
  EvLog INFO "Processing: %s" [AStr (default (lit "Untitled") (title b))] false.

Definition log_uploaded (b : bookmark) : event :=
  EvLog INFO "Uploaded: %s" [AStr (default (lit "Untitled") (title b))] false.

Definition log_caught (b : bookmark) : event :=
  EvLog ERROR "Error processing bookmark %s (%s)"
    [AStr (py_str (bookmark_id b)); AStr (default (lit "Untitled") (title b))]
    true.

(** A warning or an error line without traceback. *)
Definition complaint (e : event) : Prop :=
  ∃ lvl fmt args, e = EvLog lvl fmt args false ∧ lvl ≠ INFO.

(** A stage that answered and did not deliver. *)
Definition quiet (e : event) : Prop :=
  is_item_call e = true ∧ answer_raised e = None ∧ ¬ successful_put e.

(** The ledger after the [processed[k] = v] of a stretch of events. *)
Definition replay (d : ledger) (tr : list tev) : ledger :=
  foldl (λ d te, match te.2 with
                 | EvSetItem k v => <[k := v]> d
                 | _ => d
                 end) d tr.

(** The line that opens a turn of the loop. *)
Definition is_processing (e : event) : bool :=
  match e with
  | EvLog INFO fmt _ false => bool_decide (fmt = "Processing: %s"%string)
  | _ => false
  end.

(** The line that closes a run of the loop. *)
Definition is_summary (e : event) : bool :=
  match e with
  | EvLog INFO fmt _ false =>
      bool_decide (fmt = "Done. Processed %d bookmark(s)."%string)
  | _ => false
  end.

(** What happens before the listing is in hand: the two HTTP calls, and
    log lines that are neither the opening line of a turn nor the
    summary. *)
Definition is_startup (e : event) : bool :=
  match e with
  | EvPost _ _ _ => true
  | EvLog _ _ _ _ => negb (is_processing e) && negb (is_summary e)
  | _ => false
  end.

(** The address of the listing call. *)
Definition LIST_URL : str := INSTAPAPER_API ++ lit "/api/1/bookmarks/list".

(** The form sent with the listing call. *)
Definition list_data (limit : Z) : list (str * arg) :=
  [(lit "folder_id", AStr (lit "unread")); (lit "limit", AInt limit)].

Definition log_list_failed (resp : response) : event :=
  EvLog ERROR "Failed to fetch bookmarks (%s): %s"
    [AInt (status_code resp); AStr (text resp)] false.

(** What can happen inside a turn, after its opening line: the stages,
    the ledger update, and log lines other than the informative ones of
    the frame around the loop. *)
Definition is_turn_event (e : event) : bool :=
  match e with
  | EvPost _ _ _ | EvMkdtemp _ | EvRmtree _ => false
  | EvLog INFO fmt _ _ => bool_decide (fmt = "Uploaded: %s"%string)
  | _ => true
  end.


(** The keys set by a stretch of events. *)
Definition added_keys (tr : list tev) : gset str :=
  list_to_set (omap (λ te : tev, match te.2 with
                                 | EvSetItem k _ => Some k
                                 | _ => None
                                 end) tr).

(** *** The shape of a run

    What one turn of the loop on bookmark [b] can add to the trace after
    its [Processing] line, with the way the turn ends and the ledger it
    leaves, [d] being the ledger it starts from:
    - stages that go well, then
    - one or two complaints (nothing fetched, nothing extracted, or the
      upload tool failed), or
    - a stage that raises: if [except Exception] catches it, the error line
      follows and the turn ends normally; if not, the turn ends with it, or
    - a successful put, the new ledger entry, the write of the ledger
      file and the [Uploaded] line. *)
Inductive item_body (env : Env) (cfg : config) (b : bookmark) (d : ledger)
  : list tev → result unit → ledger → Prop :=
| ib_skip logs :
    logs ≠ [] →
    Forall (λ te, te.1 = Some b ∧ complaint te.2) logs →
    item_body env cfg b d logs (Ret tt) d
| ib_caught e cls :
    is_item_call e = true → answer_raised e = Some (Exception cls) →
    item_body env cfg b d [(Some b, e); (Some b, log_caught b)] (Ret tt) d
| ib_abort e x :
    is_item_call e = true → answer_raised e = Some x →
    is_Exception x = false →
    item_body env cfg b d [(Some b, e)] (Raise x) d
| ib_delivered pdf folder c ts :
    returncode c = 0%Z →
    let k := py_str (bookmark_id b) in
    item_body env cfg b d
      [(Some b, EvRun (put_argv pdf folder) (Ret c));
       (Some b, EvSetItem k ts);
       (Some b, EvWriteText (processed_log cfg)
                  (json_dumps env (<[k := ts]> d)));
       (Some b, log_uploaded b)]
      (Ret tt) (<[k := ts]> d)
| ib_quiet e rest r d' :
    quiet e →
    item_body env cfg b d rest r d' →
    item_body env cfg b d ((Some b, e) :: rest) r d'.

(** The loop over the new bookmarks: the turns one after the other, each
    from the ledger the one before has left, up to the end of the list or
    to a turn that does not end normally. *)
Inductive loop_run (env : Env) (cfg : config)
  : ledger → list bookmark → list tev → result unit → ledger → Prop :=
| loop_done d : loop_run env cfg d [] [] (Ret tt) d
| loop_next d b rest body d1 tr r d2 :
    item_body env cfg b d body (Ret tt) d1 →
    loop_run env cfg d1 rest tr r d2 →
    loop_run env cfg d (b :: rest)
      ((Some b, log_processing b) :: body ++ tr) r d2
| loop_stop d b rest body x d1 :
    item_body env cfg b d body (Raise x) d1 →
    loop_run env cfg d (b :: rest)
      ((Some b, log_processing b) :: body) (Raise x) d1.


(* ===================================================================== *)
(** * Part I, continued: the rest of the program and its vocabulary       *)
(* ===================================================================== *)

(** ** The library finder (source lines 17-34)

    On macOS, when the Homebrew library directory exists,
    [ctypes.util.find_library] is replaced by [_find_library_brew], which
    asks the original finder first and then looks into that directory.
    The original finder and [os.path.exists] are parameters. *)

Definition _brew_lib : str := lit "/opt/homebrew/lib".

Definition _find_library_brew (_orig_find_library : str → option str)
           (path_exists : str → bool) (name : str) : option str :=
  let result := _orig_find_library name in
  if negb (falsy result) then result
  else
    let candidate :=
      Py.path_join _brew_lib (lit "lib" ++ name ++ lit ".dylib") in
    if path_exists candidate then Some candidate else None.

(** ** More vocabulary *)

(** A character that shows in a file name: the first substitution keeps
    it and it is not whitespace. *)
Definition visible (c : N) : bool := negb (forbidden c) && negb (Py.isspace c).

(** *** Startup *)

(** The address and the form of the token request, and the session it is
    sent with. *)
Definition AUTH_URL : str := INSTAPAPER_API ++ lit "/api/1/oauth/access_token".

Definition auth_data (cfg : config) : list (str * arg) :=
  [(lit "x_auth_username", AStr (username cfg));
   (lit "x_auth_password", AStr (password cfg));
   (lit "x_auth_mode", AStr (lit "client_auth"))].

Definition anonymous (cfg : config) : session :=
  {| client_key := consumer_key cfg; client_secret := consumer_secret cfg;
     resource_owner := None |}.

(** The required variables that [os.getenv] finds unset or empty. *)
Definition missing_vars (env : Env) : list str :=
  filter (λ k, Py.truthy (getenv_or env k []) = false) required.

(** The error lines of the startup. *)
Definition log_missing (env : Env) : event :=
  EvLog ERROR "Missing env vars: %s. See config.example.env"
    [AStr (Py.join (lit ", ") (missing_vars env))] false.

Definition log_no_rmapi : event :=
  EvLog ERROR
    "rmapi not found. Install via: brew install ddvk/tap/rmapi or download from https://github.com/ddvk/rmapi/releases"
    [] false.

Definition log_auth_failed (resp : response) : event :=
  EvLog ERROR "Instapaper auth failed (%s): %s"
    [AInt (status_code resp); AStr (text resp)] false.

(** The path of the PDF of a bookmark in the temporary directory. *)
Definition pdf_path_of (tmpdir : str) (b : bookmark) : str :=
  Py.path_join tmpdir
    (sanitize_filename (default (lit "Untitled") (title b)) ++ lit ".pdf").

(** *** The stages of one item *)

Definition log_no_html (url : str) : event :=
  EvLog WARNING "Could not fetch HTML for: %s" [AStr url] false.

Definition log_no_content (url : str) : event :=
  EvLog WARNING "Could not extract content for: %s" [AStr url] false.

Definition log_put_failed (c : completed) : event :=
  EvLog ERROR "rmapi upload failed: %s %s" [AStr (stdout c); AStr (stderr c)]
    false.

Definition mkdir_argv (folder : str) : list str :=
  [lit "rmapi"; lit "mkdir"; folder].

(** The document handed to the renderer for an extracted content. *)
Definition page (env : Env) (content : str) : str :=
  HTML_TEMPLATE_format EREADER_CSS (normalize_graphic env content).

(** *** A turn of the loop, stage by stage *)

(** The chain of outside calls that delivers bookmark [b] when the turn
    starts at time [t] and every stage goes well: fetch, extraction,
    rendering, [rmapi mkdir], [rmapi put].  Each stage works on what the
    one before has given. *)
Definition stages (env : Env) (cfg : config) (tmpdir : str) (b : bookmark)
           (t : nat) : list event :=
  let url := default [] (url b) in
  let pdf := pdf_path_of tmpdir b in
  let folder := remarkable_folder cfg in
  let r1 := fetch_url env t url in
  let html := match r1 with Ret (Some h) => h | _ => [] end in
  let r2 := extract env (S t) html in
  let content := match r2 with Ret (Some c) => c | _ => [] end in
  let r3 := write_pdf env (S (S t)) (page env content) url pdf in
  [EvFetchUrl url r1;
   EvExtract html r2;
   EvWritePdf (page env content) url pdf r3;
   EvRun (mkdir_argv folder) (run env (S (S (S t))) (mkdir_argv folder));
   EvRun (put_argv pdf folder)
     (run env (S (S (S (S t)))) (put_argv pdf folder))].

(** The outside calls among some events. *)
Definition item_calls (tr : list tev) : list event :=
  omap (λ te : tev, if is_item_call te.2 then Some te.2 else None) tr.

(** [p] occurs in [s]. *)
Definition occurs (p s : str) : Prop := ∃ pre post, s = pre ++ p ++ post.

(** ** Variations of the small world *)
Module World.

Definition with_getenv (f : str → option str) (e : Env) : Env :=
  {| getenv := f; py_int := py_int e; expand_path := expand_path e;
     which := which e; http_post := http_post e; parse_qs := parse_qs e;
     fetch_url := fetch_url e; extract := extract e; write_pdf := write_pdf e;
     run := run e; utcnow_iso := utcnow_iso e; mkdtemp := mkdtemp e;
     json_loads := json_loads e; json_dumps := json_dumps e;
     alnum_hi := alnum_hi e |}.

Definition with_py_int (f : str → option Z) (e : Env) : Env :=
  {| getenv := getenv e; py_int := f; expand_path := expand_path e;
     which := which e; http_post := http_post e; parse_qs := parse_qs e;
     fetch_url := fetch_url e; extract := extract e; write_pdf := write_pdf e;
     run := run e; utcnow_iso := utcnow_iso e; mkdtemp := mkdtemp e;
     json_loads := json_loads e; json_dumps := json_dumps e;
     alnum_hi := alnum_hi e |}.

Definition with_which (f : str → option str) (e : Env) : Env :=
  {| getenv := getenv e; py_int := py_int e; expand_path := expand_path e;
     which := f; http_post := http_post e; parse_qs := parse_qs e;
     fetch_url := fetch_url e; extract := extract e; write_pdf := write_pdf e;
     run := run e; utcnow_iso := utcnow_iso e; mkdtemp := mkdtemp e;
     json_loads := json_loads e; json_dumps := json_dumps e;
     alnum_hi := alnum_hi e |}.

Definition with_http_post
           (f : nat → session → str → list (str * arg) → result response)
           (e : Env) : Env :=
  {| getenv := getenv e; py_int := py_int e; expand_path := expand_path e;
     which := which e; http_post := f; parse_qs := parse_qs e;
     fetch_url := fetch_url e; extract := extract e; write_pdf := write_pdf e;
     run := run e; utcnow_iso := utcnow_iso e; mkdtemp := mkdtemp e;
     json_loads := json_loads e; json_dumps := json_dumps e;
     alnum_hi := alnum_hi e |}.

Definition with_parse_qs (f : str → gmap str (list str)) (e : Env) : Env :=
  {| getenv := getenv e; py_int := py_int e; expand_path := expand_path e;
     which := which e; http_post := http_post e; parse_qs := f;
     fetch_url := fetch_url e; extract := extract e; write_pdf := write_pdf e;
     run := run e; utcnow_iso := utcnow_iso e; mkdtemp := mkdtemp e;
     json_loads := json_loads e; json_dumps := json_dumps e;
     alnum_hi := alnum_hi e |}.

(** The password is not set. *)
Definition env_no_password : Env :=
  with_getenv (λ k, if bool_decide (k = lit "INSTAPAPER_PASSWORD") then None
                    else getenv Demo.env k) Demo.env.

(** [BATCH_SIZE] is not a number. *)
Definition env_bad_batch : Env := with_py_int (λ _, None) Demo.env.

(** [rmapi] is not installed. *)
Definition env_no_rmapi : Env := with_which (λ _, None) Demo.env.

(** The token request is answered with status 401. *)
Definition resp401 : response :=
  {| status_code := 401; text := lit "Invalid xAuth credentials.";
     json := Raise (Exception "JSONDecodeError") |}.

Definition env_rejected : Env := with_http_post (λ _ _ _ _, Ret resp401) Demo.env.

(** The token request is answered with status 200 and no token. *)
Definition env_no_token : Env := with_parse_qs (λ _, ∅) Demo.env.

(** The answer of the small world to the token request. *)
Definition resp_token : response :=
  {| status_code := 200; text := lit "oauth_token=a&oauth_token_secret=b";
     json := Ret Demo.listing |}.

(** The listing call is answered with status 204. *)
Definition env_no_content : Env :=
  Demo.make 204 (λ _ _, Ret (Some (lit "<html>"))) (λ _ _, Ret Demo.ok)
    (λ _, Some Demo.old_ledger).

Definition resp204 : response :=
  {| status_code := 204; text := lit "oauth_token=a&oauth_token_secret=b";
     json := Ret Demo.listing |}.

(** Every listed bookmark is in the ledger already. *)
Definition full_ledger : ledger :=
  {[ lit "1" := lit "2026-01-01T00:00:00+00:00";
     lit "2" := lit "2026-01-02T00:00:00+00:00";
     lit "3" := lit "2026-01-03T00:00:00+00:00" ]}.

Definition env_all_known : Env :=
  Demo.make 200 (λ _ _, Ret (Some (lit "<html>"))) (λ _ _, Ret Demo.ok)
    (λ _, Some full_ledger).

(** A ledger file is in place and its directory exists. *)
Definition fs_home : gmap str node :=
  {[ Demo.ledger_path := File (lit "[1, 2"); lit "/home/u" := Dir ]}.








End World.

(* ===================================================================== *)
(** * Part II: properties                                                 *)
(* ===================================================================== *)

(** ** [sanitize_filename] *)

Example sanitize_ex1 :
  sanitize_filename (lit "  What?  <A/B>: a tale * ") = lit "What AB a tale".
Proof. vm_compute. reflexivity. Qed.

Example sanitize_ex2 : sanitize_filename (lit " ?? ") = lit "untitled".
Proof. vm_compute. reflexivity. Qed.

Section Sanitize.

Implicit Types (s t : str) (c : N).

Lemma re_sub_class_delete cls s :
  Py.re_sub_class cls [] s = filter (λ c, cls c = false) s.
Proof.
  unfold Py.re_sub_class. induction s as [|c s IH]; [done|].
  rewrite bind_cons, filter_cons, IH.
  destruct (cls c); simpl; done.
Qed.

Lemma elem_of_collapse cls repl b s c :
  c ∈ Py.re_sub_class_plus_from cls repl b s → c ∈ repl ∨ c ∈ s.
Proof.
  revert b. induction s as [|d s IH]; intros b; simpl; [set_solver|].
  destruct (cls d).
  - rewrite elem_of_app. intros [H|H].
    + destruct b; [by apply elem_of_nil in H|by left].
    + apply IH in H as [?|?]; [by left|right; by constructor].
  - rewrite elem_of_cons. intros [->|H]; [right; by constructor|].
    apply IH in H as [?|?]; [by left|right; by constructor].
Qed.

Lemma lstrip_suffix s : Py.lstrip s `suffix_of` s.
Proof.
  induction s as [|c s IH]; simpl; [done|].
  destruct (Py.isspace c); [by apply suffix_cons_r|done].
Qed.

Lemma rstrip_prefix s : Py.rstrip s `prefix_of` s.
Proof.
  unfold Py.rstrip. rewrite <-(reverse_involutive s) at 2.
  apply suffix_prefix_reverse, lstrip_suffix.
Qed.

Lemma elem_of_strip s c : c ∈ Py.strip s → c ∈ s.
Proof.
  unfold Py.strip. intros H.
  eapply elem_of_suffix; [|apply lstrip_suffix].
  eapply elem_of_prefix; [done|apply rstrip_prefix].
Qed.

(** None of the nine characters survives. *)
Lemma sanitize_no_forbidden title c :
  c ∈ sanitize_filename title → forbidden c = false.
Proof.
  unfold sanitize_filename.
  destruct (Py.truthy _).
  - intros H. eapply elem_of_prefix in H; [|apply prefix_take].
    apply elem_of_strip, elem_of_collapse in H as [H|H].
    + apply list_elem_of_singleton in H as ->. done.
    + rewrite re_sub_class_delete in H.
      by apply list_elem_of_filter in H as [? _].
  - intros H.
    assert (lit "untitled" = [117; 110; 116; 105; 116; 108; 101; 100])
      as Hs by done.
    rewrite Hs in H.
    repeat (apply elem_of_cons in H as [->|H]; [done|]).
    by apply elem_of_nil in H.
Qed.

(** The bound on the length: 120 code points. *)
Lemma sanitize_length title : (length (sanitize_filename title) ≤ 120)%nat.
Proof.
  unfold sanitize_filename. destruct (Py.truthy _).
  - rewrite length_take. lia.
  - vm_compute. lia.
Qed.

(** The result is never empty. *)
Lemma sanitize_nonempty title : sanitize_filename title ≠ [].
Proof.
  unfold sanitize_filename.
  destruct (Py.strip _) as [|c s]; simpl; done.
Qed.

Lemma collapsed_weaken b s : collapsed b s = true → collapsed false s = true.
Proof.
  destruct s as [|c s]; simpl; [done|].
  destruct (Py.isspace c); [|done].
  destruct b; simpl; [by rewrite andb_false_r|done].
Qed.

Lemma collapsed_tail b c s :
  collapsed b (c :: s) = true → collapsed false s = true.
Proof.
  simpl. destruct (Py.isspace c); [|done].
  intros [_ H]%andb_true_iff. by eapply collapsed_weaken.
Qed.

Lemma collapsed_suffix s t :
  s `suffix_of` t → collapsed false t = true → collapsed false s = true.
Proof.
  intros [k ->]. induction k as [|c k IH]; simpl; [done|].
  intros H. apply IH. by eapply (collapsed_tail false c).
Qed.

Lemma collapsed_prefix b s t :
  s `prefix_of` t → collapsed b t = true → collapsed b s = true.
Proof.
  intros [k ->]. revert b. induction s as [|c s IH]; intros b; simpl; [done|].
  destruct (Py.isspace c); [|apply IH].
  rewrite !andb_true_iff. intros [? ?]. split; [done|by apply IH].
Qed.

Lemma collapsed_re_sub b s :
  collapsed b (Py.re_sub_class_plus_from Py.isspace (lit " ") b s) = true.
Proof.
  revert b. induction s as [|c s IH]; intros b; simpl; [done|].
  destruct (Py.isspace c) eqn:E.
  - destruct b; simpl; [apply IH|]. apply (IH true).
  - simpl. rewrite E. apply IH.
Qed.

(** Whitespace runs are collapsed to single spaces. *)
Lemma sanitize_collapsed title :
  collapsed false (sanitize_filename title) = true.
Proof.
  unfold sanitize_filename. destruct (Py.truthy _); [|done].
  eapply collapsed_prefix; [apply prefix_take|].
  unfold Py.strip.
  eapply collapsed_prefix; [apply rstrip_prefix|].
  eapply collapsed_suffix; [apply lstrip_suffix|].
  apply collapsed_re_sub.
Qed.

Lemma lstrip_head s c : head (Py.lstrip s) = Some c → Py.isspace c = false.
Proof.
  induction s as [|d s IH]; simpl; [done|].
  destruct (Py.isspace d) eqn:E; [done|]. simpl. by intros [= <-].
Qed.

Lemma strip_trimmed s : trimmed (Py.strip s).
Proof.
  split; intros c.
  - unfold Py.strip. destruct (rstrip_prefix (Py.lstrip s)) as [k Hk].
    destruct (Py.rstrip (Py.lstrip s)) as [|d r]; [done|].
    simpl. intros [= ->]. apply (lstrip_head s). by rewrite Hk.
  - unfold Py.strip, Py.rstrip. rewrite last_reverse. apply lstrip_head.
Qed.

(** The result never starts with whitespace. *)
Lemma sanitize_no_leading_space title c :
  head (sanitize_filename title) = Some c → Py.isspace c = false.
Proof.
  unfold sanitize_filename.
  destruct (Py.strip _) as [|d r] eqn:E; simpl; [by intros [= <-]|].
  intros [= <-]. eapply (proj1 (strip_trimmed _)). by rewrite E.
Qed.

Lemma length_re_sub_class_plus cls b s :
  (length (Py.re_sub_class_plus_from cls (lit " ") b s) ≤ length s)%nat.
Proof.
  revert b. induction s as [|c s IH]; intros b; simpl; [done|].
  pose proof (IH true). pose proof (IH false).
  destruct (cls c); [destruct b|]; simpl; lia.
Qed.

Lemma length_strip s : (length (Py.strip s) ≤ length s)%nat.
Proof.
  unfold Py.strip.
  etrans; [apply prefix_length, rstrip_prefix|].
  apply suffix_length, lstrip_suffix.
Qed.

(** A title of at most 120 characters gives a trimmed name: nothing is
    cut off after the strip. *)
Lemma sanitize_trimmed_short title :
  (length title ≤ 120)%nat → trimmed (sanitize_filename title).
Proof.
  intros Hlen. unfold sanitize_filename.
  destruct (Py.truthy _); [|split; intros c [= <-]; done].
  rewrite take_ge; [apply strip_trimmed|].
  etrans; [apply length_strip|].
  etrans; [apply length_re_sub_class_plus|].
  rewrite re_sub_class_delete.
  etrans; [apply length_filter|done].
Qed.

End Sanitize.

(** C2 (the code departs from the claim): the name is stripped before it is
    cut to 120 characters, not after.  On a title whose 120th character is
    a space between two words the cut lands right after that space and the
    result ends with it: the derived filename is not trimmed. *)
Theorem sanitize_filename_cut_leaves_space :
  sanitize_filename Demo.long_title = replicate 119 97 ++ [32]
  ∧ ¬ trimmed (sanitize_filename Demo.long_title).
Proof.
  assert (sanitize_filename Demo.long_title = replicate 119 97 ++ [32]) as E
    by (vm_compute; reflexivity).
  split; [done|]. rewrite E. intros [_ H].
  specialize (H 32). rewrite last_snoc in H. by specialize (H eq_refl).
Qed.

(** ** The image tags *)

Example normalize_ex1 :
  normalize_graphic Demo.env Demo.markup = lit "<p>x</p><img src=a>".
Proof. vm_compute. reflexivity. Qed.

(** The boundary keeps a longer tag name as it is; a name that goes on with
    a hyphen is taken for [graphic]. *)
Example normalize_ex2 :
  normalize_graphic Demo.env (lit "<graphics x><graphic-y>")
  = lit "<graphics x><img-y>".
Proof. vm_compute. reflexivity. Qed.

Section Normalize.

Implicit Types (s t u : str) (c : N).

Lemma startswith_spec p s :
  Py.startswith p s = true → s = p ++ drop (length p) s.
Proof.
  revert s. induction p as [|a p IH]; intros [|b s]; simpl; try done.
  intros [->%N.eqb_eq H]%andb_true_iff. f_equal. by apply IH.
Qed.

Lemma re_sub_literal_rewrite a p0 pat bnd repl s :
  lit_rewrite (p0 :: pat) repl s (Py.re_sub_literal a p0 pat bnd repl s).
Proof.
  funelim (Py.re_sub_literal a p0 pat bnd repl s).
  - constructor.
  - apply andb_true_iff in Heq as [Hp _].
    apply startswith_spec in Hp. simpl in Hp. rewrite Hp at 1.
    by apply (lr_sub (p0 :: pat) repl).
  - by constructor.
Qed.

Lemma open_inv_cons s c t :
  lit_rewrite OPEN_GRAPHIC OPEN_IMG s (c :: t) → c ≠ 60 →
  ∃ s', s = c :: s' ∧ lit_rewrite OPEN_GRAPHIC OPEN_IMG s' t.
Proof. inversion 1; subst; intros Hc; by eauto. Qed.

Lemma close_inv_cons c t u :
  lit_rewrite CLOSE_GRAPHIC [] (c :: t) u → c ≠ 60 →
  ∃ u', u = c :: u' ∧ lit_rewrite CLOSE_GRAPHIC [] t u'.
Proof. inversion 1; subst; intros Hc; by eauto. Qed.

(** A deletion made by the second pass never eats into text that the
    first pass has written: the two passes together only do what
    [graphic_rewrite] allows. *)
Lemma rewrite_compose s t u :
  lit_rewrite OPEN_GRAPHIC OPEN_IMG s t →
  lit_rewrite CLOSE_GRAPHIC [] t u →
  graphic_rewrite s u.
Proof.
  remember (length s) as n eqn:Hn. revert s t u Hn.
  induction n as [n IH] using lt_wf_ind. intros s t u -> H1 H2.
  inversion H1 as [|c s1 t1 H1'|s1 t1 H1']; subst.
  - inversion H2; subst; constructor.
  - inversion H2 as [|c' t2 u2 H2'|t2 u2 H2' Heq]; subst.
    + constructor. eapply IH; [|done..]. simpl. lia.
    + do 9 (apply open_inv_cons in H1' as (? & -> & H1'); [|done]).
      apply (gr_close _ u2). eapply IH; [|done..]. simpl. lia.
  - inversion H2 as [|c' t2 u2 H2'|t2 u2 H2' Heq]; subst.
    + do 3 (apply close_inv_cons in H2' as (? & -> & H2'); [|done]).
      apply (gr_open s1). eapply IH; [|done..].
      rewrite length_app. simpl. lia.
Qed.


End Normalize.



(** ** The ledger file *)

(** C6: when nothing exists at the ledger path, [load_processed] returns
    the empty mapping; it raises nothing and changes nothing. *)
Theorem load_processed_missing (env : Env) (path : str) (w : state) :
  fs w !! path = None →
  load_processed env path w = (Ret ∅, w).
Proof.
  intros H. unfold load_processed, bind, get_fs. by rewrite H.
Qed.

Lemma load_processed_missing_witness :
  fs (boot ∅) !! Demo.ledger_path = None
  ∧ load_processed Demo.env Demo.ledger_path (boot ∅) = (Ret ∅, boot ∅).
Proof.
  split; [reflexivity|]. apply load_processed_missing. reflexivity.
Defined.

(** C9: when a file exists at the ledger path and its content is not valid
    JSON, [load_processed] raises (the decoder's error, which nothing in
    the function catches) instead of returning a mapping. *)
Theorem load_processed_invalid_json (env : Env) (path content : str)
        (w : state) :
  fs w !! path = Some (File content) →
  json_loads env content = None →
  load_processed env path w = (Raise (Exception "JSONDecodeError"), w).
Proof.
  intros Hf Hj. unfold load_processed, bind, get_fs. by rewrite Hf, Hj.
Qed.

Lemma load_processed_invalid_json_witness :
  fs (boot Demo.fs0) !! Demo.ledger_path = Some (File (lit "{}"))
  ∧ json_loads Demo.env_corrupt (lit "{}") = None
  ∧ load_processed Demo.env_corrupt Demo.ledger_path (boot Demo.fs0)
    = (Raise (Exception "JSONDecodeError"), boot Demo.fs0).
Proof.
  split; [|split].
  - vm_compute. reflexivity.
  - reflexivity.
  - apply (load_processed_invalid_json _ _ (lit "{}")).
    + vm_compute. reflexivity.
    + reflexivity.
Defined.

(** ** The run, step by step *)

Lemma auth_url_not_list_url :
  INSTAPAPER_API ++ lit "/api/1/oauth/access_token" ≠ LIST_URL.
Proof. vm_compute. discriminate. Qed.

Section Item.

Context (env : Env).

(** Literals stay folded while the program is run symbolically. *)
#[local] Opaque lit INSTAPAPER_API.

Ltac unfold_monad :=
  unfold environ, int, first_of, write_text, mkdir_parents, setitem,
    subprocess_run, post, tempfile_mkdtemp, rmtree, call, ask, of_result,
    try_except, try_finally, sys_exit, bind, set_cur, log_info,
    log_warning, log_error, log_exception, emit, ret, raise, set_fs,
    set_processed, get_processed, get_fs, now_iso in *.

Ltac unfold_program :=
  unfold main_item, article_to_pdf, upload_to_remarkable, save_processed
    in *;
  unfold_monad.

Ltac solve_rc :=
  match goal with
  | H : bool_decide (returncode _ ≠ _) = false |- _ =>
      apply bool_decide_eq_false in H; by apply dec_stable in H
  end.

Ltac not_put :=
  let Heq := fresh in
  let Hrc := fresh in
  intros (? & ? & ? & Heq & Hrc);
  first [ discriminate Heq
        | by apply (f_equal length) in Heq
        | match goal with
          | H : bool_decide (returncode ?c ≠ _) = true,
            H' : returncode ?c' = _ |- _ =>
              assert (c' = c) as -> by congruence;
              by apply bool_decide_eq_true in H
          end ].

Ltac solve_quiet := split; [reflexivity|split; [reflexivity|not_put]].

Ltac solve_complaint :=
  simpl; (split; [reflexivity|]); eexists _, _, _; by split.

Ltac destruct_exn :=
  match goal with
  | H : is_Exception ?e = true |- _ => destruct e; try discriminate H
  end.

Lemma main_item_run cfg tmpdir b w :
  ∃ body r d' files t,
    item_body env cfg b (processed w) body r d'
    ∧ main_item env cfg tmpdir b w
      = (r, {| fs := files; clock := t; processed := d'; cur := Some b;
               trace := trace w ++ (Some b, log_processing b) :: body |}).
Proof.
  destruct (main_item env cfg tmpdir b w) as [r w'] eqn:E.
  unfold_program. simpl in E.
  repeat (case_match; simplify_eq/=).
  all: rewrite <- ?app_assoc; simpl.
  all: eexists _, _, _, _, _; (split; [|reflexivity]).
  all: repeat (eapply ib_quiet; [solve_quiet|]).
  all: try solve [apply ib_skip; [done|];
                  repeat (constructor; [solve_complaint|]); constructor].
  all: try solve [apply ib_abort; done].
  all: try solve [destruct_exn; by eapply ib_caught].
  all: apply ib_delivered; solve_rc.
Qed.

(** The loop: the turns in order, until the list ends or a turn is cut
    short by an exception that [except Exception] lets through. *)
Lemma for_each_run cfg tmpdir new w :
  ∃ tr r d' files t c,
    loop_run env cfg (processed w) new tr r d'
    ∧ for_each new (main_item env cfg tmpdir) w
      = (r, {| fs := files; clock := t; processed := d'; cur := c;
               trace := trace w ++ tr |}).
Proof.
  revert w. induction new as [|b rest IH]; intros w.
  - exists [], (Ret tt), (processed w), (fs w), (clock w), (cur w).
    split; [constructor|]. rewrite app_nil_r. by destruct w.
  - destruct (main_item_run cfg tmpdir b w)
      as (body & r & d1 & files & t & Hbody & Hrun).
    simpl. unfold bind. rewrite Hrun. destruct r as [[]|x].
    + edestruct IH as (tr & r & d2 & files' & t' & c & Hloop & ->).
      simpl in *. eexists _, _, _, _, _, _. split.
      * eapply loop_next; done.
      * by rewrite <- app_assoc.
    + eexists _, _, _, _, _, _. split; [by eapply loop_stop|done].
Qed.

Lemma state_eta w :
  {| fs := fs w; clock := clock w; processed := processed w; cur := cur w;
     trace := trace w ++ [] |} = w.
Proof. destruct w. simpl. by rewrite app_nil_r. Qed.

(** Before the listing is in hand only log lines and HTTP calls happen,
    and nothing but the clock and the trace changes.  A listing call
    answered with a status other than 200 is followed by the error line,
    and the listing is empty. *)
Lemma main_listing_run w :
  ∃ evs r t,
    main_listing env w
    = (r, {| fs := fs w; clock := t; processed := processed w;
             cur := cur w; trace := trace w ++ evs |})
    ∧ Forall (λ te, te.1 = cur w ∧ is_startup te.2 = true) evs
    ∧ (is_Some (raised r) ∨ Forall (λ te, answer_raised te.2 = None) evs)
    ∧ ∀ tag data resp,
        (tag, EvPost LIST_URL data (Ret resp)) ∈ evs →
        status_code resp ≠ 200%Z →
        ∃ cfg pre,
          r = Ret (cfg, [])
          ∧ evs = pre ++ [(tag, EvPost LIST_URL data (Ret resp));
                          (tag, log_list_failed resp)].
Proof.
  destruct (main_listing env w) as [r w'] eqn:E.
  unfold main_listing, load_config, check_rmapi, instapaper_auth,
    fetch_bookmarks in E.
  unfold_monad. simpl in E.
  repeat (case_match; simplify_eq/=).
  all: rewrite <- ?app_assoc; simpl.
  all: eexists _, _, _;
    (split; [first [reflexivity
                   |apply (f_equal2 pair); [done|symmetry; apply state_eta]]|]).
  all: split;
    [repeat first [apply Forall_nil_2|apply Forall_cons_2; [by split|]]|].
  all: split;
    [first [by left; eexists
           |right;
            repeat first [apply Forall_nil_2|apply Forall_cons_2; [done|]]]|].
  all: intros tag data resp Hin Hst.
  all: repeat (apply elem_of_cons in Hin as [Hin|Hin]);
    try (by apply elem_of_nil in Hin); try discriminate Hin.
  all: try (by injection Hin as _ Hurl _ _;
            symmetry in Hurl; apply auth_url_not_list_url in Hurl).
  all: inversion Hin; subst.
  all: try (by case_bool_decide).
  all: by eexists _, [_; _; _].
Qed.

Lemma load_processed_state path w : (load_processed env path w).2 = w.
Proof.
  unfold load_processed. unfold_program. simpl. by repeat case_match.
Qed.

(** What [main] does once it holds a listing, given the ledger [d] it
    loads: either nothing is new, or the loop runs between the creation
    and the removal of the temporary directory, and the closing line
    follows if the loop ended normally. *)
Lemma main_batch_run cfg bookmarks w d :
  load_processed env (processed_log cfg) w = (Ret d, w) →
  let new := new_bookmarks bookmarks d in
  let dir := mkdtemp env (clock w) (lit "instapaper_") in
  (new = []
   ∧ main_batch env cfg bookmarks w
     = (Ret tt,
        {| fs := fs w; clock := clock w; processed := d; cur := cur w;
           trace := trace w
             ++ [(cur w, EvLog INFO "No new bookmarks to process." [] false)]
        |}))
  ∨ (new ≠ []
     ∧ ∃ tr r d' files t c,
         loop_run env cfg d new tr r d'
         ∧ main_batch env cfg bookmarks w
           = (r,
              {| fs := filter (λ kv, Py.under dir kv.1 = false) files;
                 clock := t; processed := d'; cur := c;
                 trace := trace w
                   ++ [(cur w, EvLog INFO "Processing %d new bookmark(s)..."
                                 [AInt (Z.of_nat (length new))] false);
                       (cur w, EvMkdtemp dir)]
                   ++ tr
                   ++ (c, EvRmtree dir)
                      :: match r with
                         | Ret _ =>
                             [(c, EvLog INFO "Done. Processed %d bookmark(s)."
                                    [AInt (Z.of_nat (size d'))] false)]
                         | Raise _ => []
                         end |})).
Proof.
  intros Hload new dir.
  destruct (decide (new = [])) as [Hnew|Hnew]; [left|right]; (split; [done|]).
  - unfold main_batch. unfold bind at 1. rewrite Hload.
    unfold bind at 1. simpl. fold new. by rewrite bool_decide_true.
  - unfold main_batch. unfold bind at 1. rewrite Hload.
    unfold bind at 1. simpl. fold new. rewrite bool_decide_false by done.
    destruct (for_each_run cfg dir new
                {| fs := <[dir := Dir]> (fs w); clock := S (clock w);
                   processed := d; cur := cur w;
                   trace := (trace w
                     ++ [(cur w, EvLog INFO "Processing %d new bookmark(s)..."
                                   [AInt (Z.of_nat (length new))] false)])
                     ++ [(cur w, EvMkdtemp dir)] |})
      as (tr & r & d' & files & t & c & Hloop & Hrun).
    exists tr, r, d', files, t, c. split; [done|].
    unfold_monad. simpl. fold dir. rewrite Hrun. simpl.
    destruct r as [[]|x]; simpl; rewrite <- !app_assoc; done.
Qed.

(** The whole of [main], from a fresh start on the file system [fs0]. *)
Lemma main_run fs0 :
  ∃ evs t r1,
    let w1 := {| fs := fs0; clock := t; processed := ∅; cur := None;
                 trace := evs |} in
    main_listing env (boot fs0) = (r1, w1)
    ∧ Forall (λ te, te.1 = None ∧ is_startup te.2 = true) evs
    ∧ (∀ tag data resp,
          (tag, EvPost LIST_URL data (Ret resp)) ∈ evs →
          status_code resp ≠ 200%Z →
          ∃ cfg pre,
            r1 = Ret (cfg, [])
            ∧ evs = pre ++ [(tag, EvPost LIST_URL data (Ret resp));
                            (tag, log_list_failed resp)])
    ∧ match r1 with
      | Raise e => main env (boot fs0) = (Raise e, w1)
      | Ret (cfg, bookmarks) =>
          if decide (bookmarks = []) then
            main env (boot fs0)
            = (Ret tt,
               {| fs := fs0; clock := t; processed := ∅; cur := None;
                  trace := evs
                    ++ [(None, EvLog INFO "No bookmarks found." [] false)] |})
          else
            main env (boot fs0) = main_batch env cfg bookmarks w1
            ∧ ∃ r2, load_processed env (processed_log cfg) w1 = (r2, w1)
                    ∧ ∀ e, r2 = Raise e →
                           main_batch env cfg bookmarks w1 = (Raise e, w1)
      end.
Proof.
  destruct (main_listing_run (boot fs0))
    as (evs & r1 & t & Hrun & Hevs & _ & Hfail).
  simpl in Hrun, Hevs. exists evs, t, r1. simpl.
  split; [done|]. split; [done|]. split; [done|].
  assert (main env (boot fs0)
          = match r1 with
            | Ret (cfg, bookmarks) =>
                (if bool_decide (bookmarks = [])
                 then log_info "No bookmarks found." []
                 else main_batch env cfg bookmarks)
                  {| fs := fs0; clock := t; processed := ∅; cur := None;
                     trace := evs |}
            | Raise e =>
                (Raise e, {| fs := fs0; clock := t; processed := ∅;
                             cur := None; trace := evs |})
            end) as ->.
  { unfold main. unfold bind at 1. rewrite Hrun. by destruct r1 as [[]|]. }
  destruct r1 as [[cfg bookmarks]|e]; [|done].
  case_decide as Hb.
  - rewrite bool_decide_true by done. done.
  - rewrite bool_decide_false by done. split; [done|].
    pose proof (load_processed_state (processed_log cfg)
      {| fs := fs0; clock := t; processed := ∅; cur := None;
         trace := evs |}) as Hst.
    destruct (load_processed env (processed_log cfg) _) as [r2 w2] eqn:Hl.
    simpl in Hst. subst w2. exists r2. split; [done|].
    intros e ->. unfold main_batch. unfold bind at 1. by rewrite Hl.
Qed.

End Item.

(** ** Reading the shape of a run *)

Section Shape.

Context (env : Env) (cfg : config).

Implicit Types (b : bookmark) (d : ledger) (tr body pre post : list tev)
  (te : tev) (e : event).

Lemma split_app {A} (l1 l2 xs ys : list A) x :
  l1 ++ l2 = xs ++ x :: ys →
  (∃ ys1, l1 = xs ++ x :: ys1 ∧ ys = ys1 ++ l2)
  ∨ (∃ xs2, xs = l1 ++ xs2 ∧ l2 = xs2 ++ x :: ys).
Proof.
  intros [(k & -> & Hk)|(k & -> & ->)]%app_eq_inv; [|by eauto].
  destruct k as [|y k]; simpl in Hk.
  - right. exists []. rewrite !app_nil_r. by split.
  - injection Hk as -> ->. left. by exists k.
Qed.

Lemma filter_none {A} (P : A → Prop) `{∀ x, Decision (P x)} (xs : list A) :
  Forall (λ x, ¬ P x) xs → filter P xs = [].
Proof.
  induction 1 as [|x xs Hx _ IH]; [done|]. by rewrite filter_cons_False.
Qed.




Lemma complaint_inv e :
  complaint e →
  is_item_call e = false ∧ answer_raised e = None ∧ ¬ successful_put e
  ∧ is_turn_event e = true ∧ is_processing e = false
  ∧ (∀ k v, e ≠ EvSetItem k v) ∧ (∀ p c, e ≠ EvWriteText p c).
Proof.
  intros (lvl & fmt & args & -> & Hl). repeat split; try done.
  - by intros (? & ? & ? & ? & _).
  - by destruct lvl.
  - by destruct lvl.
Qed.

Lemma replay_app d tr1 tr2 :
  replay d (tr1 ++ tr2) = replay (replay d tr1) tr2.
Proof. apply foldl_app. Qed.

Lemma replay_quiet d tr :
  Forall (λ te, ∀ k v, te.2 ≠ EvSetItem k v) tr → replay d tr = d.
Proof.
  induction 1 as [|[tag e] tr He _ IH]; [done|].
  simpl in *. destruct e; try done. by destruct (He key value).
Qed.

Lemma added_keys_cons te tr :
  added_keys (te :: tr)
  = match te.2 with
    | EvSetItem k _ => {[k]} ∪ added_keys tr
    | _ => added_keys tr
    end.
Proof. unfold added_keys. simpl. by destruct te as [? []]. Qed.

Lemma added_keys_app tr1 tr2 :
  added_keys (tr1 ++ tr2) = added_keys tr1 ∪ added_keys tr2.
Proof.
  unfold added_keys. rewrite omap_app, list_to_set_app_L. done.
Qed.

Lemma added_keys_quiet tr :
  Forall (λ te, ∀ k v, te.2 ≠ EvSetItem k v) tr → added_keys tr = ∅.
Proof.
  induction 1 as [|[tag e] tr He _ IH]; [done|].
  rewrite added_keys_cons, IH. simpl in *.
  destruct e; try done. by destruct (He key value).
Qed.

Lemma dom_replay d tr : dom (replay d tr) = dom d ∪ added_keys tr.
Proof.
  revert d. induction tr as [|[tag e] tr IH]; intros d.
  - unfold added_keys. simpl. set_solver.
  - rewrite added_keys_cons. simpl.
    destruct e; rewrite IH; try done.
    rewrite dom_insert_L. set_solver.
Qed.

(** Entries set under keys that the ledger did not have leave what it
    had in place. *)
Lemma replay_subseteq d tr :
  (∀ k, k ∈ added_keys tr → d !! k = None) → d ⊆ replay d tr.
Proof.
  induction tr as [|[tag e] tr IH] using rev_ind; intros Hk; [done|].
  rewrite replay_app. simpl.
  assert (d ⊆ replay d tr) as Hd.
  { apply IH. intros k Hin. apply Hk. rewrite added_keys_app. set_solver. }
  destruct e; try done.
  apply insert_subseteq_r; [|done].
  apply Hk. rewrite added_keys_app, added_keys_cons. simpl. set_solver.
Qed.

(** Every event of a turn carries the bookmark of the turn. *)
Lemma item_body_tags b d body r d' :
  item_body env cfg b d body r d' → Forall (λ te, te.1 = Some b) body.
Proof.
  induction 1 as [logs _ Hlogs| | | |]; try by repeat constructor.
  eapply Forall_impl; [done|]. by intros ? [? _].
Qed.

Lemma item_body_turn_events b d body r d' :
  item_body env cfg b d body r d' →
  Forall (λ te, is_turn_event te.2 = true) body.
Proof.
  induction 1 as [logs _ Hlogs|e ? He|e ? He| |e rest r d' He _ IH].
  - eapply Forall_impl; [done|]. intros ? [_ Hc].
    by apply complaint_inv in Hc as (_ & _ & _ & ? & _).
  - repeat constructor. by destruct e.
  - repeat constructor. by destruct e.
  - by repeat constructor.
  - constructor; [|done]. destruct He as [He _]. by destruct e.
Qed.

(** The ledger a turn leaves is the one it found plus what it set. *)
Lemma item_body_replay b d body r d' :
  item_body env cfg b d body r d' → replay d body = d'.
Proof.
  induction 1 as [logs _ Hlogs|e ? He|e ? He| |e rest r d' He _ IH].
  - apply replay_quiet. eapply Forall_impl; [done|]. intros ? [_ Hc].
    by apply complaint_inv in Hc as (_ & _ & _ & _ & _ & ? & _).
  - by destruct e.
  - by destruct e.
  - done.
  - destruct He as [He _]. by destruct e.
Qed.

(** [x] sits somewhere in a list given element by element: one case per
    position. *)
Ltac positions Heq pre :=
  repeat (destruct pre as [|? pre]; simpl in Heq;
          [simplify_eq/=|injection Heq as <- Heq]);
  try (by destruct pre).


(** A ledger entry is only set right after a successful put, and for the
    bookmark of the turn. *)
Lemma item_body_setitem b d body r d' pre tag k v post :
  item_body env cfg b d body r d' →
  body = pre ++ (tag, EvSetItem k v) :: post →
  k = py_str (bookmark_id b)
  ∧ ∃ pre' e, pre = pre' ++ [(tag, e)] ∧ successful_put e.
Proof.
  intros H. revert pre.
  induction H as [logs _ Hlogs|e0 ? ? He|e0 ? ? He|pdf folder c
                 |e0 rest r d' He _ IH];
    intros pre Heq.
  - rewrite Heq in Hlogs.
    apply Forall_app in Hlogs as [_ [[_ Hc] _]%Forall_cons].
    apply complaint_inv in Hc as (_ & _ & _ & _ & _ & Hc & _).
    by destruct (Hc k v).
  - positions Heq pre.
  - positions Heq pre.
  - positions Heq pre. split; [done|].
    exists [], (EvRun (put_argv pdf folder) (Ret c)). split; [done|].
    by exists pdf, folder, c.
  - destruct pre as [|p pre]; simpl in Heq.
    + simplify_eq/=. by destruct He as [? _].
    + injection Heq as <- Heq.
      destruct (IH _ Heq) as (-> & pre' & e & -> & Hput).
      split; [done|]. by exists ((Some b, e0) :: pre'), e.
Qed.




(** *** The loop *)

Lemma loop_run_tags d new tr r d' :
  loop_run env cfg d new tr r d' →
  Forall (λ te, ∃ b, te.1 = Some b ∧ b ∈ new) tr.
Proof.
  induction 1 as [|d b rest body d1 tr r d2 Hb _ IH|d b rest body x d1 Hb].
  - constructor.
  - constructor; [exists b; split; [done|by left]|].
    apply Forall_app. split.
    + eapply Forall_impl; [by eapply item_body_tags|].
      intros te ?. exists b. split; [done|by left].
    + eapply Forall_impl; [done|].
      intros te (b' & ? & ?). exists b'. split; [done|by right].
  - constructor; [exists b; split; [done|by left]|].
    eapply Forall_impl; [by eapply item_body_tags|].
    intros te ?. exists b. split; [done|by left].
Qed.

Lemma loop_run_events d new tr r d' :
  loop_run env cfg d new tr r d' →
  Forall (λ te, is_turn_event te.2 = true ∨ is_processing te.2 = true) tr.
Proof.
  induction 1 as [|d b rest body d1 tr r d2 Hb _ IH|d b rest body x d1 Hb].
  - constructor.
  - constructor; [by right|]. apply Forall_app. split; [|done].
    eapply Forall_impl; [by eapply item_body_turn_events|]. by left.
  - constructor; [by right|].
    eapply Forall_impl; [by eapply item_body_turn_events|]. by left.
Qed.

(** The ledger after the loop is the loaded one plus what was set. *)
Lemma loop_run_replay d new tr r d' :
  loop_run env cfg d new tr r d' → replay d tr = d'.
Proof.
  induction 1 as [|d b rest body d1 tr r d2 Hb _ IH|d b rest body x d1 Hb].
  - done.
  - change (replay d (body ++ tr) = d2).
    by rewrite replay_app, (item_body_replay _ _ _ _ _ Hb).
  - change (replay d body = d1). by eapply item_body_replay.
Qed.


Lemma loop_run_setitem d new tr r d' pre tag k v post :
  loop_run env cfg d new tr r d' →
  tr = pre ++ (tag, EvSetItem k v) :: post →
  (∃ b, b ∈ new ∧ k = py_str (bookmark_id b))
  ∧ ∃ pre' e, pre = pre' ++ [(tag, e)] ∧ successful_put e.
Proof.
  intros H. revert pre.
  induction H as [|d b rest body d1 tr r d2 Hb _ IH|d b rest body x d1 Hb];
    intros pre Heq.
  - by destruct pre.
  - destruct pre as [|p pre]; simpl in Heq; [by simplify_eq/=|].
    injection Heq as <- Heq.
    apply split_app in Heq as [(post1 & Hbody & ->)|(pre2 & -> & Htr)].
    + destruct (item_body_setitem _ _ _ _ _ _ _ _ _ _ Hb Hbody)
        as (-> & pre' & e & -> & Hput).
      split; [exists b; split; [by left|done]|].
      by exists ((Some b, log_processing b) :: pre'), e.
    + destruct (IH _ Htr) as ((b' & ? & ->) & pre' & e & -> & Hput).
      split; [exists b'; split; [by right|done]|].
      exists ((Some b, log_processing b) :: body ++ pre'), e.
      split; [|done]. simpl. by rewrite <- app_assoc.
  - destruct pre as [|p pre]; simpl in Heq; [by simplify_eq/=|].
    injection Heq as <- Heq.
    destruct (item_body_setitem _ _ _ _ _ _ _ _ _ _ Hb Heq)
      as (-> & pre' & e & -> & Hput).
    split; [exists b; split; [by left|done]|].
    by exists ((Some b, log_processing b) :: pre'), e.
Qed.




(** The keys set by the loop are ids of bookmarks of its list. *)
Lemma loop_run_keys d new tr r d' k :
  loop_run env cfg d new tr r d' →
  k ∈ added_keys tr → ∃ b, b ∈ new ∧ k = py_str (bookmark_id b).
Proof.
  intros Hloop Hk. unfold added_keys in Hk.
  apply elem_of_list_to_set, list_elem_of_omap in Hk as ([tag e] & Hin & He).
  simpl in He. destruct e; try done. injection He as ->.
  apply list_elem_of_split in Hin as (pre & post & Heq).
  by destruct (loop_run_setitem _ _ _ _ _ _ _ _ _ _ Hloop Heq) as [? _].
Qed.




End Shape.

(** ** The claims about a run

    A run starts from [boot fs0].  [cfg] and [bookmarks] are what the
    listing phase returns and [d] is the ledger as loaded; the statements
    read the trace and the state that [main] leaves. *)

Section Run.

Context (env : Env) (fs0 : gmap str node).
Context (cfg : config) (bookmarks : list bookmark) (w1 : state) (d : ledger).

Hypothesis Hlist : main_listing env (boot fs0) = (Ret (cfg, bookmarks), w1).
Hypothesis Hload : load_processed env (processed_log cfg) w1 = (Ret d, w1).

Local Abbreviation new := (new_bookmarks bookmarks d).
Local Abbreviation final := (main env (boot fs0)).2.

(** The three ways the run can go once the listing is in hand. *)
Lemma run_cases :
  ∃ evs t,
    Forall (λ te, te.1 = None ∧ is_startup te.2 = true
                  ∧ answer_raised te.2 = None) evs
    ∧ ((bookmarks = []
        ∧ main env (boot fs0)
          = (Ret tt,
             {| fs := fs0; clock := t; processed := ∅; cur := None;
                trace := evs
                  ++ [(None, EvLog INFO "No bookmarks found." [] false)] |}))
       ∨ (bookmarks ≠ [] ∧ new = []
          ∧ main env (boot fs0)
            = (Ret tt,
               {| fs := fs0; clock := t; processed := d; cur := None;
                  trace := evs
                    ++ [(None, EvLog INFO "No new bookmarks to process." []
                                 false)] |}))
       ∨ (bookmarks ≠ [] ∧ new ≠ []
          ∧ ∃ tr r d' files t' c dir,
              loop_run env cfg d new tr r d'
              ∧ main env (boot fs0)
                = (r,
                   {| fs := filter (λ kv, Py.under dir kv.1 = false) files;
                      clock := t'; processed := d'; cur := c;
                      trace := evs
                        ++ [(None, EvLog INFO "Processing %d new bookmark(s)..."
                                     [AInt (Z.of_nat (length new))] false);
                            (None, EvMkdtemp dir)]
                        ++ tr
                        ++ (c, EvRmtree dir)
                           :: match r with
                              | Ret _ =>
                                  [(c, EvLog INFO
                                         "Done. Processed %d bookmark(s)."
                                         [AInt (Z.of_nat (size d'))] false)]
                              | Raise _ => []
                              end |}))).
Proof.
  destruct (main_listing_run env (boot fs0))
    as (evs & r1 & t & Hrun & Hevs & Hans & _).
  rewrite Hlist in Hrun. injection Hrun as <- ->. simpl in *.
  destruct Hans as [[? [=]]|Hans].
  exists evs, t. split.
  { apply Forall_forall. intros te Hte.
    rewrite Forall_forall in Hevs. rewrite Forall_forall in Hans.
    destruct (Hevs _ Hte). by specialize (Hans _ Hte). }
  assert (main env (boot fs0)
          = (if bool_decide (bookmarks = [])
             then log_info "No bookmarks found." []
             else main_batch env cfg bookmarks)
              {| fs := fs0; clock := t; processed := ∅; cur := None;
                 trace := evs |}) as ->.
  { unfold main. unfold bind at 1. by rewrite Hlist. }
  destruct (decide (bookmarks = [])) as [Hb|Hb].
  { left. split; [done|]. by rewrite bool_decide_true. }
  right. rewrite bool_decide_false by done.
  destruct (main_batch_run env cfg bookmarks _ d Hload)
    as [[Hnew ->]|(Hnew & tr & r & d' & files & t' & c & Hloop & ->)].
  - left. done.
  - right. split; [done|]. split; [done|].
    by exists tr, r, d', files, t', c, (mkdtemp env t (lit "instapaper_")).
Qed.

Lemma startup_not_call e : is_startup e = true → is_item_call e = false.
Proof. by destruct e. Qed.

(** C1: a bookmark whose id, as a string, is a key of the loaded ledger
    is left out: no fetch, extraction, rendering or upload call of the
    run is made for it.  Every such call is made during the turn of a
    listed bookmark whose id is absent from the loaded ledger. *)
Theorem only_new_bookmarks_processed :
  (∀ b e, is_Some (d !! py_str (bookmark_id b)) →
          (Some b, e) ∈ trace final → is_item_call e = false)
  ∧ (∀ tag e, (tag, e) ∈ trace final → is_item_call e = true →
              ∃ b, tag = Some b ∧ b ∈ bookmarks
                   ∧ d !! py_str (bookmark_id b) = None).
Proof.
  assert (∀ tag e, (tag, e) ∈ trace final → is_item_call e = true →
                   ∃ b, tag = Some b ∧ b ∈ bookmarks
                        ∧ d !! py_str (bookmark_id b) = None) as Hmain.
  { intros tag e Hin Hcall.
    assert (∀ evs, Forall (λ te, te.1 = None ∧ is_startup te.2 = true
                                 ∧ answer_raised te.2 = None) evs →
                   (tag, e) ∉ evs) as Hstart.
    { intros evs Hevs Hte. rewrite Forall_forall in Hevs.
      destruct (Hevs _ Hte) as (_ & Hs%startup_not_call & _).
      simpl in Hs. congruence. }
    destruct run_cases
      as (evs & t & Hevs
          & [(_ & Hm)|[(_ & _ & Hm)
            |(_ & _ & tr & r & d' & files & t' & c & dir & Hloop & Hm)]]);
      rewrite Hm in Hin; simpl in Hin.
    - apply elem_of_app in Hin as [Hin|Hin]; [by apply Hstart in Hin|].
      apply list_elem_of_singleton in Hin. by simplify_eq/=.
    - apply elem_of_app in Hin as [Hin|Hin]; [by apply Hstart in Hin|].
      apply list_elem_of_singleton in Hin. by simplify_eq/=.
    - apply elem_of_app in Hin as [Hin|Hin]; [by apply Hstart in Hin|].
      apply elem_of_cons in Hin as [Hin|Hin]; [by simplify_eq/=|].
      apply elem_of_cons in Hin as [Hin|Hin]; [by simplify_eq/=|].
      apply elem_of_app in Hin as [Hin|Hin].
      + apply loop_run_tags in Hloop. rewrite Forall_forall in Hloop.
        destruct (Hloop _ Hin) as (b & Hb & Hnew). simpl in Hb.
        apply list_elem_of_filter in Hnew as [? ?]. by exists b.
      + apply elem_of_cons in Hin as [Hin|Hin]; [by simplify_eq/=|].
        destruct r; [|by apply elem_of_nil in Hin].
        apply list_elem_of_singleton in Hin. by simplify_eq/=. }
  split; [|done]. intros b e [v Hv] Hin.
  destruct (is_item_call e) eqn:Hcall; [|done].
  destruct (Hmain _ _ Hin Hcall) as (b' & [= <-] & _ & Hb). congruence.
Qed.

Lemma startup_no_set evs :
  Forall (λ te, te.1 = None ∧ is_startup te.2 = true
                ∧ answer_raised te.2 = None) evs →
  Forall (λ te : tev, ∀ k v, te.2 ≠ EvSetItem k v) evs.
Proof.
  intros H. eapply Forall_impl; [done|].
  intros [? e'] (_ & He' & _) k v. simpl in *. by intros ->.
Qed.






(** C10: the number in the closing line of a run is the size of the
    whole ledger in memory at that point: the loaded ledger, which is
    still there entry for entry, plus the distinct ids set during the
    run.  It is not the number of bookmarks delivered by this run. *)
Theorem summary_counts_whole_ledger tag n :
  (tag, EvLog INFO "Done. Processed %d bookmark(s)." [AInt n] false)
    ∈ trace final →
  n = Z.of_nat (size (processed final))
  ∧ d ⊆ processed final
  ∧ size (processed final)
    = (size d + size (added_keys (trace final)))%nat.
Proof.
  intros Hin.
  assert (∀ evs, Forall (λ te, te.1 = None ∧ is_startup te.2 = true
                               ∧ answer_raised te.2 = None) evs →
                 (tag, EvLog INFO "Done. Processed %d bookmark(s)."
                         [AInt n] false) ∉ evs) as Hstart.
  { intros evs Hevs Hte. rewrite Forall_forall in Hevs.
    by destruct (Hevs _ Hte) as (_ & ? & _). }
  destruct run_cases
    as (evs & t & Hevs
        & [(_ & Hm)|[(_ & _ & Hm)
          |(_ & _ & tr & r & d' & files & t' & c & dir & Hloop & Hm)]]);
    rewrite Hm in Hin |- *; cbn [fst snd trace processed] in Hin |- *.
  - apply elem_of_app in Hin as [Hin|Hin]; [by apply Hstart in Hin|].
    apply list_elem_of_singleton in Hin. by simplify_eq/=.
  - apply elem_of_app in Hin as [Hin|Hin]; [by apply Hstart in Hin|].
    apply list_elem_of_singleton in Hin. by simplify_eq/=.
  - assert (∀ k, k ∈ added_keys tr → d !! k = None) as Hfresh.
    { intros k Hk.
      destruct (loop_run_keys _ _ _ _ _ _ _ _ Hloop Hk) as (b & Hb & ->).
      by apply list_elem_of_filter in Hb as [? _]. }
    assert (d' = replay d tr) as Hd'
      by (symmetry; by eapply loop_run_replay).
    assert (n = Z.of_nat (size d')) as ->.
    { apply elem_of_app in Hin as [Hin|Hin]; [by apply Hstart in Hin|].
      apply elem_of_app in Hin as [Hin|Hin].
      { apply elem_of_cons in Hin as [Hin|Hin]; [by simplify_eq/=|].
        apply list_elem_of_singleton in Hin. by simplify_eq/=. }
      apply elem_of_app in Hin as [Hin|Hin].
      { apply loop_run_events in Hloop. rewrite Forall_forall in Hloop.
        by destruct (Hloop _ Hin). }
      apply elem_of_cons in Hin as [Hin|Hin]; [by simplify_eq/=|].
      destruct r; [|by apply elem_of_nil in Hin].
      apply list_elem_of_singleton in Hin. by simplify_eq/=. }
    split; [done|]. split; [subst d'; by apply replay_subseteq|].
    rewrite !added_keys_app, (added_keys_quiet evs)
      by by apply startup_no_set.
    rewrite (added_keys_quiet [_; _]) by by repeat constructor.
    rewrite (added_keys_quiet (_ :: _))
      by (destruct r; by repeat constructor).
    rewrite !(left_id_L ∅ (∪)), (right_id_L ∅ (∪)).
    rewrite <- !size_dom, Hd', dom_replay.
    apply size_union. intros k Hk1 Hk2.
    apply Hfresh in Hk2. apply elem_of_dom in Hk1 as [? ?]. congruence.
Qed.

End Run.


(** ** The temporary directory *)

Example interrupted_run_cleans_up :
  let '(r, w) := main Demo.env_interrupted (boot Demo.fs0) in
  r = Raise KeyboardInterrupt
  ∧ last (trace w) = Some (Some Demo.b2, EvRmtree (lit "/tmp/instapaper_x"))
  ∧ fs w !! lit "/tmp/instapaper_x" = None.
Proof. vm_compute. done. Qed.

(** C8: in every run that creates the temporary directory, [rmtree] is
    called on it when the loop is left, whether the loop ended normally
    (then only the closing line follows) or by an exception (then nothing
    follows), whatever happened to the items; in the file system the run
    leaves, nothing exists at the directory or below it. *)
Theorem tmpdir_removed (env : Env) (fs0 : gmap str node) tag dir :
  let r := (main env (boot fs0)).1 in
  let w := (main env (boot fs0)).2 in
  (tag, EvMkdtemp dir) ∈ trace w →
  (∀ q, Py.under dir q = true → fs w !! q = None)
  ∧ ∃ pre c,
      (tag, EvMkdtemp dir) ∈ pre
      ∧ trace w
        = pre ++ (c, EvRmtree dir)
              :: match r with
                 | Ret _ =>
                     [(c, EvLog INFO "Done. Processed %d bookmark(s)."
                            [AInt (Z.of_nat (size (processed w)))] false)]
                 | Raise _ => []
                 end.
Proof.
  intros r w Hin. subst r w.
  assert (∀ evs, Forall (λ te, te.1 = None ∧ is_startup te.2 = true) evs →
                 (tag, EvMkdtemp dir) ∉ evs) as Hstart.
  { intros evs Hevs Hte. rewrite Forall_forall in Hevs.
    by destruct (Hevs _ Hte) as (_ & ?). }
  destruct (main_run env fs0) as (evs & t & r1 & _ & Hevs & _ & Hmain).
  destruct r1 as [[cfg bookmarks]|e].
  2:{ rewrite Hmain in Hin. by apply Hstart in Hin. }
  destruct (decide (bookmarks = [])) as [Hb|Hb].
  { rewrite Hmain in Hin. simpl in Hin.
    apply elem_of_app in Hin as [Hin|Hin]; [by apply Hstart in Hin|].
    apply list_elem_of_singleton in Hin. by simplify_eq/=. }
  destruct Hmain as (Hmain & r2 & Hload & Hraise).
  rewrite Hmain in Hin |- *. destruct r2 as [d|e].
  2:{ rewrite (Hraise e eq_refl) in Hin. by apply Hstart in Hin. }
  destruct (main_batch_run env cfg bookmarks _ d Hload)
    as [[_ Hm]|(_ & tr & r & d' & files & t' & c & Hloop & Hm)];
    rewrite Hm in Hin |- *;
    cbn [fst snd trace fs processed cur clock] in Hin |- *.
  { apply elem_of_app in Hin as [Hin|Hin]; [by apply Hstart in Hin|].
    apply list_elem_of_singleton in Hin. by simplify_eq/=. }
  assert (tag = None ∧ dir = mkdtemp env t (lit "instapaper_")) as [-> ->].
  { apply elem_of_app in Hin as [Hin|Hin]; [by apply Hstart in Hin|].
    apply elem_of_app in Hin as [Hin|Hin].
    { apply elem_of_cons in Hin as [Hin|Hin]; [by simplify_eq/=|].
      apply list_elem_of_singleton in Hin. by simplify_eq/=. }
    exfalso. apply elem_of_app in Hin as [Hin|Hin].
    { apply loop_run_events in Hloop. rewrite Forall_forall in Hloop.
      by destruct (Hloop _ Hin). }
    apply elem_of_cons in Hin as [Hin|Hin]; [by simplify_eq/=|].
    destruct r; [|by apply elem_of_nil in Hin].
    apply list_elem_of_singleton in Hin. by simplify_eq/=. }
  split.
  - intros q Hq. apply map_lookup_filter_None. right. intros x _. simpl.
    by rewrite Hq.
  - eexists (evs ++ [_; (None, EvMkdtemp _)] ++ tr), c. split.
    + apply elem_of_app. right. apply elem_of_app. left. right. left.
    + by rewrite <- !app_assoc.
Qed.

(** ** The listing call *)

(** C7: when the listing call is answered with a status outside 200-299,
    [fetch_bookmarks] logs the error line and returns the empty list; it
    neither raises nor exits. *)
Theorem fetch_bookmarks_listing_failure (env : Env) (s : session) (limit : Z)
        (w : state) (resp : response) :
  http_post env (clock w) s LIST_URL (list_data limit) = Ret resp →
  ¬ (200 ≤ status_code resp ≤ 299)%Z →
  fetch_bookmarks env s limit w
  = (Ret [],
     {| fs := fs w; clock := S (clock w); processed := processed w;
        cur := cur w;
        trace := trace w ++ [(cur w, EvPost LIST_URL (list_data limit) (Ret resp));
                             (cur w, log_list_failed resp)] |}).
Proof.
  intros Hpost Hstatus.
  unfold fetch_bookmarks, post, call, ask, of_result, log_error, emit, bind, ret.
  fold LIST_URL. fold (list_data limit). rewrite Hpost. simpl.
  rewrite bool_decide_true by lia. simpl. by rewrite <- app_assoc.
Qed.

(** X28: after a listing call answered with a status other than 200 the
    run goes on: the error line is followed by the report that there are
    no bookmarks, which ends the trace, and [main] returns normally. *)
Lemma main_survives_listing_failure (env : Env) (fs0 : gmap str node)
      tag data resp :
  let r := (main env (boot fs0)).1 in
  let w := (main env (boot fs0)).2 in
  (tag, EvPost LIST_URL data (Ret resp)) ∈ trace w →
  status_code resp ≠ 200%Z →
  r = Ret tt
  ∧ ∃ pre, trace w
           = pre ++ [(tag, EvPost LIST_URL data (Ret resp));
                     (tag, log_list_failed resp);
                     (None, EvLog INFO "No bookmarks found." [] false)].
Proof.
  intros r w Hin Hstatus. subst r w.
  destruct (main_run env fs0) as (evs & t & r1 & _ & Hevs & Hfail & Hmain).
  assert ((tag, EvPost LIST_URL data (Ret resp)) ∈ evs →
          ∃ cfg pre, r1 = Ret (cfg, [])
                     ∧ evs = pre ++ [(tag, EvPost LIST_URL data (Ret resp));
                                     (tag, log_list_failed resp)]) as Hevs'
    by (intros ?; by apply Hfail).
  destruct r1 as [[cfg bookmarks]|e].
  2:{ rewrite Hmain in Hin. by destruct (Hevs' Hin) as (? & ? & ? & _). }
  destruct (decide (bookmarks = [])) as [Hb|Hb].
  { rewrite Hmain in Hin |- *. simpl in Hin |- *. split; [done|].
    apply elem_of_app in Hin as [Hin|Hin].
    - destruct (Hevs' Hin) as (? & pre & _ & ->). exists pre.
      by rewrite <- app_assoc.
    - apply list_elem_of_singleton in Hin. by simplify_eq/=. }
  exfalso.
  assert ((tag, EvPost LIST_URL data (Ret resp)) ∉ evs) as Hnot.
  { intros Hin'. destruct (Hevs' Hin') as (? & ? & ? & _). by simplify_eq/=. }
  destruct Hmain as (Hmain & r2 & Hload & Hraise).
  rewrite Hmain in Hin. destruct r2 as [d|e].
  2:{ by rewrite (Hraise e eq_refl) in Hin. }
  destruct (main_batch_run env cfg bookmarks _ d Hload)
    as [[_ Hm]|(_ & tr & r & d' & files & t' & c & Hloop & Hm)];
    rewrite Hm in Hin; cbn [fst snd trace cur clock] in Hin.
  { apply elem_of_app in Hin as [Hin|Hin]; [done|].
    apply list_elem_of_singleton in Hin. by simplify_eq/=. }
  apply elem_of_app in Hin as [Hin|Hin]; [done|].
  apply elem_of_app in Hin as [Hin|Hin].
  { apply elem_of_cons in Hin as [Hin|Hin]; [by simplify_eq/=|].
    apply list_elem_of_singleton in Hin. by simplify_eq/=. }
  apply elem_of_app in Hin as [Hin|Hin].
  { apply loop_run_events in Hloop. rewrite Forall_forall in Hloop.
    by destruct (Hloop _ Hin). }
  apply elem_of_cons in Hin as [Hin|Hin]; [by simplify_eq/=|].
  destruct r; [|by apply elem_of_nil in Hin].
  apply list_elem_of_singleton in Hin. by simplify_eq/=.
Qed.

(** ** The claims on a concrete run

    The run of [Demo.env] lists three bookmarks, skips the first (its id is
    in the ledger), catches the timeout of the second and delivers the
    third. *)

Lemma demo_listing :
  main_listing Demo.env (boot Demo.fs0)
  = (Ret (Demo.cfg, [Demo.b1; Demo.b2; Demo.b3]), Demo.listed_state).
Proof. vm_compute. reflexivity. Defined.

Lemma demo_load :
  load_processed Demo.env (processed_log Demo.cfg) Demo.listed_state
  = (Ret Demo.old_ledger, Demo.listed_state).
Proof. vm_compute. reflexivity. Defined.

Lemma only_new_bookmarks_processed_witness :
  main_listing Demo.env (boot Demo.fs0)
  = (Ret (Demo.cfg, [Demo.b1; Demo.b2; Demo.b3]), Demo.listed_state)
  ∧ load_processed Demo.env (processed_log Demo.cfg) Demo.listed_state
    = (Ret Demo.old_ledger, Demo.listed_state)
  ∧ ∀ e, (Some Demo.b1, e) ∈ trace (main Demo.env (boot Demo.fs0)).2 →
         is_item_call e = false.
Proof.
  split; [exact demo_listing|]. split; [exact demo_load|].
  intros e.
  apply (proj1 (only_new_bookmarks_processed Demo.env Demo.fs0 Demo.cfg
                  [Demo.b1; Demo.b2; Demo.b3] Demo.listed_state
                  Demo.old_ledger demo_listing demo_load) Demo.b1 e).
  exists (lit "2026-01-01T00:00:00+00:00"). vm_compute. reflexivity.
Defined.




Lemma demo_summary_logged :
  (Some Demo.b3, EvLog INFO "Done. Processed %d bookmark(s)." [AInt 2] false)
    ∈ trace (main Demo.env (boot Demo.fs0)).2.
Proof. apply (list_elem_of_lookup_2 _ 19). vm_compute. reflexivity. Defined.

(** Two entries are counted although one bookmark was delivered. *)
Lemma summary_counts_whole_ledger_witness :
  main_listing Demo.env (boot Demo.fs0)
  = (Ret (Demo.cfg, [Demo.b1; Demo.b2; Demo.b3]), Demo.listed_state)
  ∧ load_processed Demo.env (processed_log Demo.cfg) Demo.listed_state
    = (Ret Demo.old_ledger, Demo.listed_state)
  ∧ (Some Demo.b3, EvLog INFO "Done. Processed %d bookmark(s)." [AInt 2] false)
      ∈ trace (main Demo.env (boot Demo.fs0)).2
  ∧ 2%Z = Z.of_nat (size (processed (main Demo.env (boot Demo.fs0)).2))
  ∧ Demo.old_ledger ⊆ processed (main Demo.env (boot Demo.fs0)).2
  ∧ size (processed (main Demo.env (boot Demo.fs0)).2)
    = (size Demo.old_ledger
       + size (added_keys (trace (main Demo.env (boot Demo.fs0)).2)))%nat.
Proof.
  split; [exact demo_listing|]. split; [exact demo_load|].
  split; [exact demo_summary_logged|].
  exact (summary_counts_whole_ledger Demo.env Demo.fs0 Demo.cfg
           [Demo.b1; Demo.b2; Demo.b3] Demo.listed_state Demo.old_ledger
           demo_listing demo_load (Some Demo.b3) 2%Z demo_summary_logged).
Defined.

Lemma demo_interrupted_mkdtemp :
  (None, EvMkdtemp Demo.tmpdir)
    ∈ trace (main Demo.env_interrupted (boot Demo.fs0)).2.
Proof. apply (list_elem_of_lookup_2 _ 5). vm_compute. reflexivity. Defined.

(** The run that is interrupted during its first turn still removes the
    directory. *)
Lemma tmpdir_removed_witness :
  (None, EvMkdtemp Demo.tmpdir)
    ∈ trace (main Demo.env_interrupted (boot Demo.fs0)).2
  ∧ (∀ q, Py.under Demo.tmpdir q = true →
          fs (main Demo.env_interrupted (boot Demo.fs0)).2 !! q = None).
Proof.
  split; [exact demo_interrupted_mkdtemp|].
  exact (proj1 (tmpdir_removed Demo.env_interrupted Demo.fs0 None Demo.tmpdir
                  demo_interrupted_mkdtemp)).
Defined.

Lemma fetch_bookmarks_listing_failure_witness :
  http_post Demo.env_unavailable (clock Demo.second_call) Demo.sess LIST_URL
    (list_data 25) = Ret Demo.resp503
  ∧ ¬ (200 ≤ status_code Demo.resp503 ≤ 299)%Z
  ∧ fetch_bookmarks Demo.env_unavailable Demo.sess 25 Demo.second_call
    = (Ret [],
       {| fs := Demo.fs0; clock := 2; processed := ∅; cur := None;
          trace := [(None, EvPost LIST_URL (list_data 25) (Ret Demo.resp503));
                    (None, log_list_failed Demo.resp503)] |}).
Proof.
  assert (¬ (200 ≤ status_code Demo.resp503 ≤ 299)%Z) as Hstatus
    by (simpl; lia).
  split; [reflexivity|]. split; [exact Hstatus|].
  exact (fetch_bookmarks_listing_failure Demo.env_unavailable Demo.sess 25
           Demo.second_call Demo.resp503 eq_refl Hstatus).
Defined.

(* ===================================================================== *)
(** * Part II, continued: the rest of the program                         *)
(* ===================================================================== *)

(** ** More on [sanitize_filename] *)

Section SanitizeMore.

Implicit Types (s t : str) (c : N).

Lemma re_sub_class_plus_collapsed b s :
  collapsed b s = true →
  Py.re_sub_class_plus_from Py.isspace (lit " ") b s = s.
Proof.
  revert b. induction s as [|c s IH]; intros b; simpl; [done|].
  destruct (Py.isspace c) eqn:E.
  - intros [[->%N.eqb_eq ->%negb_true_iff]%andb_true_iff H]%andb_true_iff.
    by rewrite (IH true).
  - intros H. by rewrite IH.
Qed.

Lemma lstrip_trimmed s :
  (∀ c, head s = Some c → Py.isspace c = false) → Py.lstrip s = s.
Proof.
  destruct s as [|c s]; simpl; [done|]. intros H. by rewrite (H c).
Qed.

Lemma strip_id s : trimmed s → Py.strip s = s.
Proof.
  intros [Hh Hl]. unfold Py.strip, Py.rstrip.
  rewrite (lstrip_trimmed s) by done.
  rewrite lstrip_trimmed; [apply reverse_involutive|].
  intros c. rewrite head_reverse. apply Hl.
Qed.

Lemma filter_collapse (P : N → Prop) `{∀ c, Decision (P c)} b s :
  (∀ c, P c → Py.isspace c = false) →
  filter P (Py.re_sub_class_plus_from Py.isspace (lit " ") b s) = filter P s.
Proof.
  intros HP. revert b. induction s as [|c s IH]; intros b; simpl; [done|].
  destruct (Py.isspace c) eqn:E.
  - rewrite filter_app, IH.
    rewrite (filter_cons_False _ c) by (intros Hc%HP; congruence).
    destruct b; [done|].
    change (lit " ") with [32]. rewrite filter_cons_False; [done|].
    intros Hc%HP. done.
  - rewrite !filter_cons, IH. done.
Qed.

Lemma filter_lstrip (P : N → Prop) `{∀ c, Decision (P c)} s :
  (∀ c, P c → Py.isspace c = false) →
  filter P (Py.lstrip s) = filter P s.
Proof.
  intros HP. induction s as [|c s IH]; simpl; [done|].
  destruct (Py.isspace c) eqn:E; [|done].
  rewrite filter_cons_False by (intros Hc%HP; congruence). done.
Qed.

Lemma filter_strip (P : N → Prop) `{∀ c, Decision (P c)} s :
  (∀ c, P c → Py.isspace c = false) →
  filter P (Py.strip s) = filter P s.
Proof.
  intros HP. unfold Py.strip, Py.rstrip.
  rewrite filter_reverse, filter_lstrip, <- filter_reverse, reverse_involutive
    by done.
  by apply filter_lstrip.
Qed.

Lemma lstrip_all_space s :
  Forall (λ c, Py.isspace c = true) s → Py.lstrip s = [].
Proof. induction 1 as [|c s Hc _ IH]; simpl; [done|]. by rewrite Hc. Qed.

Lemma collapse_all_space b s :
  Forall (λ c, Py.isspace c = true) s →
  Forall (λ c, Py.isspace c = true)
    (Py.re_sub_class_plus_from Py.isspace (lit " ") b s).
Proof.
  intros H. revert b. induction H as [|c s Hc _ IH]; intros b; simpl; [done|].
  rewrite Hc. apply Forall_app. split; [|apply IH].
  destruct b; [done|]. by repeat constructor.
Qed.

Lemma filter_all {A} (P : A → Prop) `{∀ x, Decision (P x)} (xs : list A) :
  Forall P xs → filter P xs = xs.
Proof.
  induction 1 as [|x xs Hx _ IH]; [done|].
  by rewrite filter_cons_True, IH.
Qed.

Lemma filter_prefix {A} (P : A → Prop) `{∀ x, Decision (P x)} (xs ys : list A) :
  xs `prefix_of` ys → filter P xs `prefix_of` filter P ys.
Proof. intros [k ->]. rewrite filter_app. by apply prefix_app_r. Qed.

End SanitizeMore.

(** X1: whatever the title, the derived name holds none of the nine
    characters, its whitespace is single plain spaces, it does not start
    with whitespace, and it has between 1 and 120 characters. *)
Theorem sanitize_filename_guarantees (title : str) :
  Forall (λ c, forbidden c = false) (sanitize_filename title)
  ∧ collapsed false (sanitize_filename title) = true
  ∧ (∀ c, head (sanitize_filename title) = Some c → Py.isspace c = false)
  ∧ (1 ≤ length (sanitize_filename title) ≤ 120)%nat.
Proof.
  split; [|split; [|split]].
  - apply Forall_forall. intros c. apply sanitize_no_forbidden.
  - apply sanitize_collapsed.
  - intros c. apply sanitize_no_leading_space.
  - split; [|apply sanitize_length].
    pose proof (sanitize_nonempty title).
    destruct (sanitize_filename title); simpl; [done|lia].
Qed.

(** X2: a title of at most 120 characters gives a name without trailing
    whitespace, and sanitising that name again gives it back. *)
Theorem sanitize_filename_idempotent (title : str) :
  (length title ≤ 120)%nat →
  trimmed (sanitize_filename title)
  ∧ sanitize_filename (sanitize_filename title) = sanitize_filename title.
Proof.
  intros Hlen. pose proof (sanitize_trimmed_short title Hlen) as Htr.
  split; [done|].
  pose proof (sanitize_nonempty title) as Hne.
  pose proof (sanitize_length title) as Hle.
  pose proof (sanitize_collapsed title) as Hco.
  assert (Forall (λ c, forbidden c = false) (sanitize_filename title)) as Hfo.
  { apply Forall_forall. intros c. apply sanitize_no_forbidden. }
  revert Htr Hne Hle Hco Hfo.
  generalize (sanitize_filename title). intros r Htr Hne Hle Hco Hfo.
  unfold sanitize_filename.
  rewrite re_sub_class_delete, filter_all by done.
  unfold Py.re_sub_class_plus.
  rewrite re_sub_class_plus_collapsed, strip_id by done.
  destruct r as [|c r]; [done|]. simpl Py.truthy. cbv iota.
  by apply take_ge.
Qed.

Lemma sanitize_filename_idempotent_witness :
  (length (lit "  What?  <A/B>: a tale * ") ≤ 120)%nat
  ∧ sanitize_filename (sanitize_filename (lit "  What?  <A/B>: a tale * "))
    = sanitize_filename (lit "  What?  <A/B>: a tale * ").
Proof.
  assert (length (lit "  What?  <A/B>: a tale * ") ≤ 120)%nat as H
    by (vm_compute; lia).
  split; [exact H|].
  exact (proj2 (sanitize_filename_idempotent _ H)).
Defined.

(** X3: a title made of nothing but removed characters and whitespace,
    the empty title included, gives the default name. *)
Theorem sanitize_filename_untitled (title : str) :
  Forall (λ c, forbidden c = true ∨ Py.isspace c = true) title →
  sanitize_filename title = lit "untitled".
Proof.
  intros H. unfold sanitize_filename.
  assert (Forall (λ c, Py.isspace c = true)
            (Py.re_sub_class forbidden [] title)) as Hsp.
  { rewrite re_sub_class_delete. apply Forall_forall.
    intros c [Hc Hin]%list_elem_of_filter.
    rewrite Forall_forall in H. destruct (H c Hin); congruence. }
  apply (collapse_all_space false) in Hsp.
  unfold Py.re_sub_class_plus, Py.strip.
  by rewrite (lstrip_all_space _ Hsp).
Qed.

Lemma sanitize_filename_untitled_witness :
  Forall (λ c, forbidden c = true ∨ Py.isspace c = true) (lit " ?/ ")
  ∧ sanitize_filename (lit " ?/ ") = lit "untitled".
Proof.
  assert (Forall (λ c, forbidden c = true ∨ Py.isspace c = true) (lit " ?/ "))
    as H.
  { change (lit " ?/ ") with [32; 63; 47; 32].
    repeat constructor; (by left) || (by right). }
  split; [exact H|]. exact (sanitize_filename_untitled _ H).
Defined.

(** X4: sanitising never reorders, changes or invents a visible
    character: when the title has one, the visible characters of the
    name are the title's, in order, up to where the name is cut; nothing is
    cut from a title of at most 120 characters. *)
Theorem sanitize_filename_keeps_visible (title : str) :
  filter (λ c, visible c = true) title ≠ [] →
  filter (λ c, visible c = true) (sanitize_filename title)
    `prefix_of` filter (λ c, visible c = true) title
  ∧ ((length title ≤ 120)%nat →
     filter (λ c, visible c = true) (sanitize_filename title)
     = filter (λ c, visible c = true) title).
Proof.
  intros Hvis.
  assert (∀ c, visible c = true → Py.isspace c = false) as Hsp.
  { intros c [_ ?%negb_true_iff]%andb_true_iff. done. }
  assert (filter (λ c, visible c = true)
            (Py.strip (Py.re_sub_class_plus Py.isspace (lit " ")
                         (Py.re_sub_class forbidden [] title)))
          = filter (λ c, visible c = true) title) as Hall.
  { unfold Py.re_sub_class_plus.
    rewrite filter_strip, filter_collapse, re_sub_class_delete by done.
    rewrite list_filter_filter. apply list_filter_iff.
    intros c. unfold visible. rewrite andb_true_iff, !negb_true_iff. tauto. }
  unfold sanitize_filename.
  destruct (Py.strip _) as [|c0 name] eqn:E.
  { by rewrite <- Hall in Hvis. }
  simpl Py.truthy. cbv iota. rewrite <- Hall. split.
  - apply filter_prefix, prefix_take.
  - intros Hlen. rewrite take_ge; [done|].
    rewrite <- E. etrans; [apply length_strip|].
    etrans; [apply length_re_sub_class_plus|].
    rewrite re_sub_class_delete. etrans; [apply length_filter|done].
Qed.

Lemma sanitize_filename_keeps_visible_witness :
  filter (λ c, visible c = true) (lit "A/B:  three ") ≠ []
  ∧ filter (λ c, visible c = true) (sanitize_filename (lit "A/B:  three "))
      `prefix_of` filter (λ c, visible c = true) (lit "A/B:  three ").
Proof.
  assert (filter (λ c, visible c = true) (lit "A/B:  three ") ≠ []) as H
    by (vm_compute; discriminate).
  split; [exact H|]. exact (proj1 (sanitize_filename_keeps_visible _ H)).
Defined.

(** ** The startup *)

Section Startup.

Context (env : Env).

#[local] Opaque lit INSTAPAPER_API.

Lemma getenv_truthy k :
  Py.truthy (getenv_or env k []) = true →
  ∃ v, getenv env k = Some v ∧ v ≠ [].
Proof.
  unfold getenv_or. destruct (getenv env k) as [[|c v]|]; simpl; try done.
  intros _. by eexists.
Qed.

Lemma environ_truthy k w :
  Py.truthy (getenv_or env k []) = true →
  ∃ v, getenv env k = Some v ∧ v ≠ [] ∧ environ env k w = (Ret v, w).
Proof.
  intros (v & Hv & Hne)%getenv_truthy. exists v. unfold environ.
  by rewrite Hv.
Qed.

Lemma required_truthy k :
  missing_vars env = [] → k ∈ required →
  Py.truthy (getenv_or env k []) = true.
Proof.
  intros Hm Hk. destruct (Py.truthy (getenv_or env k [])) eqn:E; [done|].
  assert (k ∈ missing_vars env) as Hin by by apply list_elem_of_filter.
  rewrite Hm in Hin. by apply elem_of_nil in Hin.
Qed.

(** [load_config] on a complete environment: the four subscripts succeed
    and the outcome hangs on [int]. *)
Lemma load_config_complete w :
  missing_vars env = [] →
  ∃ ck cs un pw,
    getenv env (lit "INSTAPAPER_CONSUMER_KEY") = Some ck ∧ ck ≠ []
    ∧ getenv env (lit "INSTAPAPER_CONSUMER_SECRET") = Some cs ∧ cs ≠ []
    ∧ getenv env (lit "INSTAPAPER_USERNAME") = Some un ∧ un ≠ []
    ∧ getenv env (lit "INSTAPAPER_PASSWORD") = Some pw ∧ pw ≠ []
    ∧ load_config env w
      = match py_int env (getenv_or env (lit "BATCH_SIZE") (lit "25")) with
        | Some bs =>
            (Ret {| consumer_key := ck; consumer_secret := cs;
                    username := un; password := pw;
                    remarkable_folder :=
                      getenv_or env (lit "REMARKABLE_FOLDER")
                        (lit "/Instapaper");
                    batch_size := bs;
                    processed_log :=
                      expand_path env
                        (getenv_or env (lit "PROCESSED_LOG")
                           (lit "~/.instapaper_to_remarkable_processed.json"))
                 |}, w)
        | None => (Raise (Exception "ValueError"), w)
        end.
Proof.
  intros Hm.
  destruct (environ_truthy (lit "INSTAPAPER_CONSUMER_KEY") w)
    as (ck & Hck & ? & Eck);
    [apply required_truthy; [done|]; unfold required; set_solver|].
  destruct (environ_truthy (lit "INSTAPAPER_CONSUMER_SECRET") w)
    as (cs & Hcs & ? & Ecs);
    [apply required_truthy; [done|]; unfold required; set_solver|].
  destruct (environ_truthy (lit "INSTAPAPER_USERNAME") w)
    as (un & Hun & ? & Eun);
    [apply required_truthy; [done|]; unfold required; set_solver|].
  destruct (environ_truthy (lit "INSTAPAPER_PASSWORD") w)
    as (pw & Hpw & ? & Epw);
    [apply required_truthy; [done|]; unfold required; set_solver|].
  exists ck, cs, un, pw. do 8 (split; [done|]).
  unfold load_config. fold (missing_vars env).
  rewrite bool_decide_true by done.
  unfold bind at 1. rewrite Eck. unfold bind at 1. rewrite Ecs.
  unfold bind at 1. rewrite Eun. unfold bind at 1. rewrite Epw.
  unfold bind, int. by destruct (py_int env _).
Qed.

Lemma load_config_incomplete w :
  missing_vars env ≠ [] →
  load_config env w
  = (Raise (SystemExit 1),
     {| fs := fs w; clock := clock w; processed := processed w;
        cur := cur w; trace := trace w ++ [(cur w, log_missing env)] |}).
Proof.
  intros Hm. unfold load_config. fold (missing_vars env).
  by rewrite bool_decide_false by done.
Qed.

End Startup.

(** X5: when a required variable is unset or empty, the run logs the
    names of all the missing ones and exits with status 1; nothing else
    has happened: no outside call, no change to the file system. *)
Theorem main_missing_config (env : Env) (fs0 : gmap str node) (k : str) :
  k ∈ required →
  Py.truthy (default [] (getenv env k)) = false →
  k ∈ missing_vars env
  ∧ main env (boot fs0)
    = (Raise (SystemExit 1),
       {| fs := fs0; clock := 0; processed := ∅; cur := None;
          trace := [(None, log_missing env)] |}).
Proof.
  intros Hk Hv.
  assert (k ∈ missing_vars env) as Hin by by apply list_elem_of_filter.
  split; [done|].
  unfold main, main_listing. unfold bind at 1. unfold bind at 1.
  rewrite load_config_incomplete; [done|].
  intros Hm. rewrite Hm in Hin. by apply elem_of_nil in Hin.
Qed.

Lemma main_missing_config_witness :
  lit "INSTAPAPER_PASSWORD" ∈ required
  ∧ Py.truthy (default [] (getenv World.env_no_password
                             (lit "INSTAPAPER_PASSWORD"))) = false
  ∧ (main World.env_no_password (boot Demo.fs0)).1 = Raise (SystemExit 1).
Proof.
  assert (lit "INSTAPAPER_PASSWORD" ∈ required) as Hk
    by (unfold required; set_solver).
  split; [exact Hk|]. split; [reflexivity|].
  exact (f_equal fst
           (proj2 (main_missing_config World.env_no_password Demo.fs0 _ Hk
                     eq_refl))).
Defined.

(** X6: with the four required variables set, a [BATCH_SIZE] that [int]
    rejects ends the run with the [ValueError] itself: no log line, no exit
    status 1, and again nothing else has happened. *)
Theorem main_bad_batch_size (env : Env) (fs0 : gmap str node) :
  missing_vars env = [] →
  py_int env (getenv_or env (lit "BATCH_SIZE") (lit "25")) = None →
  main env (boot fs0) = (Raise (Exception "ValueError"), boot fs0).
Proof.
  intros Hm Hint.
  destruct (load_config_complete env (boot fs0) Hm)
    as (ck & cs & un & pw & _ & _ & _ & _ & _ & _ & _ & _ & Hcfg).
  rewrite Hint in Hcfg.
  unfold main, main_listing. unfold bind at 1. unfold bind at 1.
  by rewrite Hcfg.
Qed.

Lemma main_bad_batch_size_witness :
  missing_vars World.env_bad_batch = []
  ∧ py_int World.env_bad_batch
      (getenv_or World.env_bad_batch (lit "BATCH_SIZE") (lit "25")) = None
  ∧ main World.env_bad_batch (boot Demo.fs0)
    = (Raise (Exception "ValueError"), boot Demo.fs0).
Proof.
  assert (missing_vars World.env_bad_batch = []) as Hm
    by (vm_compute; reflexivity).
  split; [exact Hm|]. split; [reflexivity|].
  exact (main_bad_batch_size World.env_bad_batch Demo.fs0 Hm eq_refl).
Defined.

(** X7: when [load_config] returns a configuration it has logged
    nothing and made no outside call, and the four credentials are the
    values of their variables, none of them empty; the batch size is what
    [int] makes of [BATCH_SIZE] (of 25 when it is unset). *)
Theorem load_config_credentials (env : Env) (w w' : state) (cfg : config) :
  load_config env w = (Ret cfg, w') →
  w' = w
  ∧ getenv env (lit "INSTAPAPER_CONSUMER_KEY") = Some (consumer_key cfg)
  ∧ getenv env (lit "INSTAPAPER_CONSUMER_SECRET") = Some (consumer_secret cfg)
  ∧ getenv env (lit "INSTAPAPER_USERNAME") = Some (username cfg)
  ∧ getenv env (lit "INSTAPAPER_PASSWORD") = Some (password cfg)
  ∧ consumer_key cfg ≠ [] ∧ consumer_secret cfg ≠ []
  ∧ username cfg ≠ [] ∧ password cfg ≠ []
  ∧ py_int env (default (lit "25") (getenv env (lit "BATCH_SIZE")))
    = Some (batch_size cfg).
Proof.
  intros H.
  destruct (decide (missing_vars env = [])) as [Hm|Hm].
  - destruct (load_config_complete env w Hm)
      as (ck & cs & un & pw & ? & ? & ? & ? & ? & ? & ? & ? & Hcfg).
    rewrite H in Hcfg. unfold getenv_or in Hcfg.
    destruct (py_int env _) as [bs|]; [|done].
    by simplify_eq/=.
  - by rewrite load_config_incomplete in H.
Qed.

Lemma load_config_credentials_witness :
  load_config Demo.env (boot Demo.fs0) = (Ret Demo.cfg, boot Demo.fs0)
  ∧ consumer_key Demo.cfg ≠ [].
Proof.
  assert (load_config Demo.env (boot Demo.fs0)
          = (Ret Demo.cfg, boot Demo.fs0)) as H by (vm_compute; reflexivity).
  split; [exact H|].
  exact (proj1 (proj2 (proj2 (proj2 (proj2 (proj2
           (load_config_credentials _ _ _ _ H))))))).
Defined.

(** X8: when [rmapi] is not on the path, a run with a complete
    configuration logs the installation hint and exits with status 1
    before any request is sent. *)
Theorem main_without_rmapi (env : Env) (fs0 : gmap str node) (cfg : config) :
  load_config env (boot fs0) = (Ret cfg, boot fs0) →
  Py.truthy (default [] (which env (lit "rmapi"))) = false →
  main env (boot fs0)
  = (Raise (SystemExit 1),
     {| fs := fs0; clock := 0; processed := ∅; cur := None;
        trace := [(None, log_no_rmapi)] |}).
Proof.
  intros Hcfg Hwhich.
  unfold main, main_listing. unfold bind at 1. unfold bind at 1.
  rewrite Hcfg. unfold bind at 1. unfold check_rmapi.
  by destruct (which env (lit "rmapi")) as [[|c r]|].
Qed.

Lemma main_without_rmapi_witness :
  load_config World.env_no_rmapi (boot Demo.fs0) = (Ret Demo.cfg, boot Demo.fs0)
  ∧ Py.truthy (default [] (which World.env_no_rmapi (lit "rmapi"))) = false
  ∧ (main World.env_no_rmapi (boot Demo.fs0)).1 = Raise (SystemExit 1).
Proof.
  assert (load_config World.env_no_rmapi (boot Demo.fs0)
          = (Ret Demo.cfg, boot Demo.fs0)) as H by (vm_compute; reflexivity).
  split; [exact H|]. split; [reflexivity|].
  exact (f_equal fst (main_without_rmapi World.env_no_rmapi Demo.fs0 Demo.cfg
                        H eq_refl)).
Defined.

(** X9: a token request answered with any status other than 200 makes
    [instapaper_auth] log the status and the body and exit with status 1;
    that one request is all it has sent. *)
Theorem instapaper_auth_rejected (env : Env) (cfg : config) (w : state)
        (resp : response) :
  http_post env (clock w) (anonymous cfg) AUTH_URL (auth_data cfg) = Ret resp →
  status_code resp ≠ 200%Z →
  instapaper_auth env cfg w
  = (Raise (SystemExit 1),
     {| fs := fs w; clock := S (clock w); processed := processed w;
        cur := cur w;
        trace := trace w ++ [(cur w, EvPost AUTH_URL (auth_data cfg) (Ret resp));
                             (cur w, log_auth_failed resp)] |}).
Proof.
  intros Hpost Hstatus. unfold AUTH_URL, auth_data, anonymous in Hpost.
  unfold instapaper_auth, post, call, ask, of_result, log_error, emit,
    sys_exit, raise, bind.
  rewrite Hpost. simpl. rewrite bool_decide_true by done. simpl.
  by rewrite <- app_assoc.
Qed.

Lemma instapaper_auth_rejected_witness :
  http_post World.env_rejected (clock (boot Demo.fs0)) (anonymous Demo.cfg)
    AUTH_URL (auth_data Demo.cfg) = Ret World.resp401
  ∧ status_code World.resp401 ≠ 200%Z
  ∧ (instapaper_auth World.env_rejected Demo.cfg (boot Demo.fs0)).1
    = Raise (SystemExit 1).
Proof.
  assert (status_code World.resp401 ≠ 200%Z) as H by (simpl; lia).
  split; [reflexivity|]. split; [exact H|].
  exact (f_equal fst (instapaper_auth_rejected World.env_rejected Demo.cfg
                        (boot Demo.fs0) World.resp401 eq_refl H)).
Defined.

(** X10: a token request answered with status 200 gives the session of
    the same consumer key and secret, with the first value of
    [oauth_token] and the first value of [oauth_token_secret] of the
    url-encoded body as the owner's token; nothing is logged. *)
Theorem instapaper_auth_session (env : Env) (cfg : config) (w : state)
        (resp : response) (tok sec : str) (toks secs : list str) :
  http_post env (clock w) (anonymous cfg) AUTH_URL (auth_data cfg) = Ret resp →
  status_code resp = 200%Z →
  parse_qs env (text resp) !! lit "oauth_token" = Some (tok :: toks) →
  parse_qs env (text resp) !! lit "oauth_token_secret" = Some (sec :: secs) →
  instapaper_auth env cfg w
  = (Ret {| client_key := consumer_key cfg;
            client_secret := consumer_secret cfg;
            resource_owner := Some (tok, sec) |},
     {| fs := fs w; clock := S (clock w); processed := processed w;
        cur := cur w;
        trace := trace w ++ [(cur w, EvPost AUTH_URL (auth_data cfg) (Ret resp))]
     |}).
Proof.
  intros Hpost Hstatus Htok Hsec. unfold AUTH_URL, auth_data, anonymous in Hpost.
  unfold instapaper_auth, post, call, ask, of_result, first_of, ret, bind.
  rewrite Hpost. simpl. rewrite bool_decide_false by (intros ?; done).
  by rewrite Htok, Hsec.
Qed.

Lemma instapaper_auth_session_witness :
  http_post Demo.env (clock (boot Demo.fs0)) (anonymous Demo.cfg)
    AUTH_URL (auth_data Demo.cfg) = Ret World.resp_token
  ∧ status_code World.resp_token = 200%Z
  ∧ parse_qs Demo.env (text World.resp_token) !! lit "oauth_token"
    = Some [lit "a"]
  ∧ parse_qs Demo.env (text World.resp_token) !! lit "oauth_token_secret"
    = Some [lit "b"]
  ∧ (instapaper_auth Demo.env Demo.cfg (boot Demo.fs0)).1 = Ret Demo.sess.
Proof.
  assert (parse_qs Demo.env (text World.resp_token) !! lit "oauth_token"
          = Some [lit "a"]) as Ht by (vm_compute; reflexivity).
  assert (parse_qs Demo.env (text World.resp_token) !! lit "oauth_token_secret"
          = Some [lit "b"]) as Hs by (vm_compute; reflexivity).
  split; [reflexivity|]. split; [reflexivity|].
  split; [exact Ht|]. split; [exact Hs|].
  exact (f_equal fst (instapaper_auth_session Demo.env Demo.cfg (boot Demo.fs0)
                        World.resp_token _ _ _ _ eq_refl eq_refl Ht Hs)).
Defined.

(** X11: a token request answered with status 200 whose body holds no
    [oauth_token] makes [instapaper_auth] raise [KeyError]: it logs nothing
    and does not turn the failure into exit status 1. *)
Theorem instapaper_auth_missing_token (env : Env) (cfg : config) (w : state)
        (resp : response) :
  http_post env (clock w) (anonymous cfg) AUTH_URL (auth_data cfg) = Ret resp →
  status_code resp = 200%Z →
  parse_qs env (text resp) !! lit "oauth_token" = None →
  instapaper_auth env cfg w
  = (Raise (Exception "KeyError"),
     {| fs := fs w; clock := S (clock w); processed := processed w;
        cur := cur w;
        trace := trace w ++ [(cur w, EvPost AUTH_URL (auth_data cfg) (Ret resp))]
     |}).
Proof.
  intros Hpost Hstatus Htok. unfold AUTH_URL, auth_data, anonymous in Hpost.
  unfold instapaper_auth, post, call, ask, of_result, first_of, raise, bind.
  rewrite Hpost. simpl. rewrite bool_decide_false by (intros ?; done).
  by rewrite Htok.
Qed.

Lemma instapaper_auth_missing_token_witness :
  http_post World.env_no_token (clock (boot Demo.fs0)) (anonymous Demo.cfg)
    AUTH_URL (auth_data Demo.cfg) = Ret World.resp_token
  ∧ status_code World.resp_token = 200%Z
  ∧ parse_qs World.env_no_token (text World.resp_token) !! lit "oauth_token"
    = None
  ∧ (instapaper_auth World.env_no_token Demo.cfg (boot Demo.fs0)).1
    = Raise (Exception "KeyError").
Proof.
  split; [reflexivity|]. split; [reflexivity|]. split; [reflexivity|].
  exact (f_equal fst (instapaper_auth_missing_token World.env_no_token Demo.cfg
                        (boot Demo.fs0) World.resp_token eq_refl eq_refl
                        eq_refl)).
Defined.

(** X12: when the startup (configuration, check of [rmapi],
    authentication, listing) ends with an exception, [main] ends with the
    same exception at once: the file system is as it was found, the ledger
    in memory is still empty, and the trace holds nothing but the requests
    sent and log lines. *)
Theorem startup_failure_aborts (env : Env) (fs0 : gmap str node) (e : exn)
        (w1 : state) :
  main_listing env (boot fs0) = (Raise e, w1) →
  main env (boot fs0) = (Raise e, w1)
  ∧ fs w1 = fs0 ∧ processed w1 = ∅
  ∧ Forall (λ te, te.1 = None ∧ is_startup te.2 = true) (trace w1).
Proof.
  intros Hlist.
  destruct (main_run env fs0) as (evs & t & r1 & Hrun & Hevs & _ & Hmain).
  simpl in Hrun. rewrite Hlist in Hrun. injection Hrun as <- ->.
  by rewrite Hmain.
Qed.

Lemma startup_failure_aborts_witness :
  main_listing World.env_rejected (boot Demo.fs0)
  = (Raise (SystemExit 1), (main_listing World.env_rejected (boot Demo.fs0)).2)
  ∧ main World.env_rejected (boot Demo.fs0)
    = (Raise (SystemExit 1),
       (main_listing World.env_rejected (boot Demo.fs0)).2).
Proof.
  assert (main_listing World.env_rejected (boot Demo.fs0)
          = (Raise (SystemExit 1),
             (main_listing World.env_rejected (boot Demo.fs0)).2)) as H
    by (vm_compute; reflexivity).
  split; [exact H|].
  exact (proj1 (startup_failure_aborts _ _ _ _ H)).
Defined.

(** ** More on the listing *)

(** X13: only status 200 counts as success.  Any other status, a 2xx one
    such as 204 included, makes [fetch_bookmarks] log the error line and
    return the empty list without reading the body as JSON. *)
Theorem fetch_bookmarks_not_200 (env : Env) (s : session) (limit : Z)
        (w : state) (resp : response) :
  http_post env (clock w) s LIST_URL (list_data limit) = Ret resp →
  status_code resp ≠ 200%Z →
  fetch_bookmarks env s limit w
  = (Ret [],
     {| fs := fs w; clock := S (clock w); processed := processed w;
        cur := cur w;
        trace := trace w ++ [(cur w, EvPost LIST_URL (list_data limit) (Ret resp));
                             (cur w, log_list_failed resp)] |}).
Proof.
  intros Hpost Hstatus. unfold LIST_URL, list_data in Hpost.
  unfold fetch_bookmarks, post, call, ask, of_result, log_error, emit, bind, ret.
  rewrite Hpost. simpl. rewrite bool_decide_true by done. simpl.
  by rewrite <- app_assoc.
Qed.

Lemma fetch_bookmarks_not_200_witness :
  http_post World.env_no_content (clock Demo.second_call) Demo.sess LIST_URL
    (list_data 25) = Ret World.resp204
  ∧ status_code World.resp204 ≠ 200%Z
  ∧ (fetch_bookmarks World.env_no_content Demo.sess 25 Demo.second_call).1
    = Ret [].
Proof.
  assert (status_code World.resp204 ≠ 200%Z) as H by (simpl; lia).
  split; [reflexivity|]. split; [exact H|].
  exact (f_equal fst (fetch_bookmarks_not_200 World.env_no_content Demo.sess 25
                        Demo.second_call World.resp204 eq_refl H)).
Defined.

(** X14: on status 200 [fetch_bookmarks] sends one request, logs nothing
    and returns the records of type bookmark of the decoded body, all of
    them, in the order of the body; the other records are dropped.  An
    error of the decoder is raised as it is. *)
Theorem fetch_bookmarks_keeps_bookmarks (env : Env) (s : session) (limit : Z)
        (w : state) (resp : response) :
  http_post env (clock w) s LIST_URL (list_data limit) = Ret resp →
  status_code resp = 200%Z →
  ∃ r,
    fetch_bookmarks env s limit w
    = (r,
       {| fs := fs w; clock := S (clock w); processed := processed w;
          cur := cur w;
          trace := trace w
                   ++ [(cur w, EvPost LIST_URL (list_data limit) (Ret resp))]
       |})
    ∧ match json resp with
      | Ret data =>
          ∃ bs, r = Ret bs
                ∧ RBookmark <$> bs
                  = filter (λ x, is_Some (is_bookmark x)) data
      | Raise e => r = Raise e
      end.
Proof.
  intros Hpost Hstatus. unfold LIST_URL, list_data in Hpost.
  unfold fetch_bookmarks, post, call, ask, of_result, bind, ret.
  rewrite Hpost. simpl. rewrite bool_decide_false by (intros ?; done).
  destruct (json resp) as [data|e]; eexists; (split; [reflexivity|]); [|done].
  eexists. split; [reflexivity|].
  induction data as [|[b|ty] data IH]; simpl; [done|..].
  - rewrite filter_cons_True by (by eexists). by rewrite <- IH.
  - rewrite filter_cons_False by (by intros [? ?]). done.
Qed.

Lemma fetch_bookmarks_keeps_bookmarks_witness :
  http_post Demo.env (clock Demo.second_call) Demo.sess LIST_URL
    (list_data 25) = Ret World.resp_token
  ∧ status_code World.resp_token = 200%Z
  ∧ ∃ r,
      fetch_bookmarks Demo.env Demo.sess 25 Demo.second_call
      = (r,
         {| fs := Demo.fs0; clock := 2; processed := ∅; cur := None;
            trace := [(None, EvPost LIST_URL (list_data 25)
                               (Ret World.resp_token))] |})
      ∧ ∃ bs, r = Ret bs
              ∧ RBookmark <$> bs
                = filter (λ x, is_Some (is_bookmark x)) Demo.listing.
Proof.
  split; [reflexivity|]. split; [reflexivity|].
  exact (fetch_bookmarks_keeps_bookmarks Demo.env Demo.sess 25
           Demo.second_call World.resp_token eq_refl eq_refl).
Defined.

(** ** Where the PDF goes *)

Section PdfPath.

Implicit Types (s t : str).

Lemma after_sep_app s t : 47 ∉ s → Py.after_sep (s ++ 47 :: t) = t.
Proof.
  induction s as [|c s IH]; simpl; [done|].
  intros [Hc Hs]%not_elem_of_cons.
  destruct (c =? 47) eqn:E; [by apply N.eqb_eq in E|]. by apply IH.
Qed.

Lemma startswith_app s t : Py.startswith s (s ++ t) = true.
Proof.
  induction s as [|c s IH]; simpl; [done|]. by rewrite N.eqb_refl.
Qed.

Lemma filename_no_sep title : 47 ∉ sanitize_filename title ++ lit ".pdf".
Proof.
  intros [H|H]%elem_of_app.
  - by apply sanitize_no_forbidden in H.
  - change (lit ".pdf") with [46; 112; 100; 102] in H.
    repeat (apply elem_of_cons in H as [H|H]; [done|]).
    by apply elem_of_nil in H.
Qed.

Lemma path_join_filename tmpdir title :
  tmpdir ≠ [] → last tmpdir ≠ Some 47 →
  Py.path_join tmpdir (sanitize_filename title ++ lit ".pdf")
  = tmpdir ++ lit "/" ++ sanitize_filename title ++ lit ".pdf".
Proof.
  intros Hne Hlast. unfold Py.path_join.
  pose proof (filename_no_sep title) as Hsep.
  assert (Py.startswith (lit "/") (sanitize_filename title ++ lit ".pdf")
          = false) as ->.
  { destruct (sanitize_filename title ++ lit ".pdf") as [|c r]; [done|].
    change (Py.startswith (lit "/") (c :: r)) with ((47 =? c) && true).
    destruct (47 =? c) eqn:E; [|done].
    apply N.eqb_eq in E as <-. destruct Hsep. by left. }
  by rewrite !bool_decide_false by done.
Qed.


End PdfPath.

(** X15: the name derived from a title holds no path separator, so the
    path [main] builds for the PDF is the temporary directory, one
    separator and the name: whatever the title, the file is a direct child
    of the temporary directory. *)
Theorem pdf_path_inside_tmpdir (tmpdir title : str) :
  tmpdir ≠ [] → last tmpdir ≠ Some 47 →
  (let filename := sanitize_filename title ++ lit ".pdf" in
   let pdf_path := Py.path_join tmpdir filename in
   (47 ∉ filename)
   ∧ pdf_path = tmpdir ++ lit "/" ++ filename
   ∧ Py.parent pdf_path = tmpdir
   ∧ Py.under tmpdir pdf_path = true).
Proof.
  intros Hne Hlast filename pdf_path.
  pose proof (filename_no_sep title) as Hsep. fold filename in Hsep.
  assert (pdf_path = tmpdir ++ lit "/" ++ filename) as Hpath
    by by apply path_join_filename.
  split; [done|]. split; [done|]. rewrite Hpath. split.
  - unfold Py.parent. change (lit "/") with [47].
    rewrite bool_decide_true by (apply elem_of_app; right; by left).
    rewrite !reverse_app. simpl. rewrite reverse_singleton.
    rewrite <- app_assoc. simpl. rewrite after_sep_app.
    + rewrite reverse_involutive. by destruct tmpdir.
    + by rewrite elem_of_reverse.
  - unfold Py.under. rewrite app_assoc, startswith_app.
    by rewrite orb_true_r.
Qed.

Lemma pdf_path_inside_tmpdir_witness :
  Demo.tmpdir ≠ [] ∧ last Demo.tmpdir ≠ Some 47
  ∧ Py.parent (Py.path_join Demo.tmpdir
                 (sanitize_filename (lit "../../etc/passwd") ++ lit ".pdf"))
    = Demo.tmpdir.
Proof.
  assert (Demo.tmpdir ≠ []) as H1 by (vm_compute; discriminate).
  assert (last Demo.tmpdir ≠ Some 47) as H2 by (vm_compute; discriminate).
  split; [exact H1|]. split; [exact H2|].
  exact (proj1 (proj2 (proj2
           (pdf_path_inside_tmpdir Demo.tmpdir (lit "../../etc/passwd")
              H1 H2)))).
Defined.

(** ** Runs that deliver nothing *)

Lemma demo_unavailable_listed :
  (None, EvPost LIST_URL (list_data 25) (Ret Demo.resp503))
    ∈ trace (main Demo.env_unavailable (boot Demo.fs0)).2.
Proof. apply (list_elem_of_lookup_2 _ 3). vm_compute. reflexivity. Defined.

Lemma main_survives_listing_failure_witness :
  (None, EvPost LIST_URL (list_data 25) (Ret Demo.resp503))
    ∈ trace (main Demo.env_unavailable (boot Demo.fs0)).2
  ∧ status_code Demo.resp503 ≠ 200%Z
  ∧ (main Demo.env_unavailable (boot Demo.fs0)).1 = Ret tt.
Proof.
  assert (status_code Demo.resp503 ≠ 200%Z) as H by (simpl; lia).
  split; [exact demo_unavailable_listed|]. split; [exact H|].
  exact (proj1 (main_survives_listing_failure Demo.env_unavailable Demo.fs0
                  None (list_data 25) Demo.resp503 demo_unavailable_listed H)).
Defined.

(** X16: when every listed bookmark has its id in the loaded ledger, the
    run ends normally after one more log line, which says that there is
    nothing new (or, when nothing is listed at all, that no bookmarks were
    found): no temporary directory is
    made, no outside call follows the listing, the ledger file is not
    rewritten and the file system is as it was found. *)
Theorem main_nothing_new (env : Env) (fs0 : gmap str node) (cfg : config)
        (bookmarks : list bookmark) (w1 : state) (d : ledger) :
  main_listing env (boot fs0) = (Ret (cfg, bookmarks), w1) →
  load_processed env (processed_log cfg) w1 = (Ret d, w1) →
  Forall (λ b, is_Some (d !! py_str (bookmark_id b))) bookmarks →
  main env (boot fs0)
  = (Ret tt,
     {| fs := fs0; clock := clock w1;
        processed := if decide (bookmarks = []) then ∅ else d;
        cur := None;
        trace := trace w1
          ++ [(None, EvLog INFO
                       (if decide (bookmarks = []) then "No bookmarks found."
                        else "No new bookmarks to process.") [] false)] |}).
Proof.
  intros Hlist Hload Hall.
  destruct (main_run env fs0) as (evs & t & r1 & Hrun & _ & _ & Hmain).
  simpl in Hrun. rewrite Hlist in Hrun. injection Hrun as <- ->.
  simpl. destruct (decide (bookmarks = [])) as [Hb|Hb].
  { by rewrite Hmain. }
  destruct Hmain as (-> & _).
  destruct (main_batch_run env cfg bookmarks _ d Hload)
    as [[_ ->]|(Hnew & _)]; [done|].
  destruct Hnew. unfold new_bookmarks. apply filter_none.
  eapply Forall_impl; [done|]. simpl. intros b [v Hv]. by rewrite Hv.
Qed.

Lemma demo_all_known_listing :
  main_listing World.env_all_known (boot Demo.fs0)
  = (Ret (Demo.cfg, [Demo.b1; Demo.b2; Demo.b3]), Demo.listed_state).
Proof. vm_compute. reflexivity. Defined.

Lemma demo_all_known_load :
  load_processed World.env_all_known (processed_log Demo.cfg)
    Demo.listed_state
  = (Ret World.full_ledger, Demo.listed_state).
Proof. vm_compute. reflexivity. Defined.

Lemma demo_all_known :
  Forall (λ b, is_Some (World.full_ledger !! py_str (bookmark_id b)))
    [Demo.b1; Demo.b2; Demo.b3].
Proof. repeat constructor; eexists; vm_compute; reflexivity. Defined.

Lemma main_nothing_new_witness :
  main_listing World.env_all_known (boot Demo.fs0)
  = (Ret (Demo.cfg, [Demo.b1; Demo.b2; Demo.b3]), Demo.listed_state)
  ∧ load_processed World.env_all_known (processed_log Demo.cfg)
      Demo.listed_state
    = (Ret World.full_ledger, Demo.listed_state)
  ∧ Forall (λ b, is_Some (World.full_ledger !! py_str (bookmark_id b)))
      [Demo.b1; Demo.b2; Demo.b3]
  ∧ main World.env_all_known (boot Demo.fs0)
    = (Ret tt,
       {| fs := Demo.fs0; clock := clock Demo.listed_state;
          processed := World.full_ledger; cur := None;
          trace := trace Demo.listed_state
                   ++ [(None, EvLog INFO "No new bookmarks to process." []
                                false)] |}).
Proof.
  split; [exact demo_all_known_listing|]. split; [exact demo_all_known_load|].
  split; [exact demo_all_known|].
  exact (main_nothing_new World.env_all_known Demo.fs0 Demo.cfg
           [Demo.b1; Demo.b2; Demo.b3] Demo.listed_state World.full_ledger
           demo_all_known_listing demo_all_known_load demo_all_known).
Defined.

(** ** Writing the ledger *)

Section Save.

Context (env : Env).

(** The state [save_processed] leaves. *)
Lemma save_processed_run path d w :
  save_processed env path d w
  = (Ret tt,
     {| fs := <[path := File (json_dumps env d)]>
                (match fs w !! Py.parent path with
                 | None => <[Py.parent path := Dir]> (fs w)
                 | Some _ => fs w
                 end);
        clock := clock w; processed := processed w; cur := cur w;
        trace := trace w ++ [(cur w, EvWriteText path (json_dumps env d))] |}).
Proof. done. Qed.


End Save.



(** X18: what [save_processed] writes, [load_processed] reads back: after a
    save at a path, a load from the same path returns the mapping saved,
    whatever the file held before, provided the JSON decoder undoes the
    encoder on that mapping. *)
Theorem save_then_load (env : Env) (path : str) (d : ledger) (w : state) :
  (∀ c, fs w !! Py.parent path ≠ Some (File c)) →
  fs w !! path ≠ Some Dir →
  json_loads env (json_dumps env d) = Some d →
  load_processed env path (save_processed env path d w).2
  = (Ret d, (save_processed env path d w).2).
Proof.
  intros _ _ Hcodec. rewrite save_processed_run.
  unfold load_processed, bind, get_fs. simpl.
  by rewrite lookup_insert_eq, Hcodec.
Qed.

Lemma save_then_load_witness :
  (∀ c, fs (boot World.fs_home) !! Py.parent Demo.ledger_path ≠ Some (File c))
  ∧ fs (boot World.fs_home) !! Demo.ledger_path ≠ Some Dir
  ∧ json_loads Demo.env (json_dumps Demo.env Demo.old_ledger)
    = Some Demo.old_ledger
  ∧ (load_processed Demo.env Demo.ledger_path
       (save_processed Demo.env Demo.ledger_path Demo.old_ledger
          (boot World.fs_home)).2).1
    = Ret Demo.old_ledger.
Proof.
  assert (∀ c, fs (boot World.fs_home) !! Py.parent Demo.ledger_path
               ≠ Some (File c)) as H1 by (intros c; vm_compute; discriminate).
  assert (fs (boot World.fs_home) !! Demo.ledger_path ≠ Some Dir) as H2
    by (vm_compute; discriminate).
  split; [exact H1|]. split; [exact H2|]. split; [reflexivity|].
  exact (f_equal fst (save_then_load Demo.env Demo.ledger_path Demo.old_ledger
                        (boot World.fs_home) H1 H2 eq_refl)).
Defined.

(** ** The stages of one item *)

Section Stages.

Context (env : Env).

#[local] Opaque lit INSTAPAPER_API HTML_TEMPLATE_format EREADER_CSS
  normalize_graphic.

(** X19: the ways [article_to_pdf] can end.  It returns [True] only after
    the fetch and the extraction have both given something and the
    renderer has written the PDF of the normalised content, with the
    article's address as base, to the output path; it returns [False]
    after one warning, when the fetch or the extraction gave nothing, and
    raises what a stage raised; in those cases nothing is rendered after
    the failure and no file is written. *)
Theorem article_to_pdf_outcomes (title url out : str) (w : state) :
  ∃ evs,
    trace (article_to_pdf env title url out w).2 = trace w ++ evs
    ∧ processed (article_to_pdf env title url out w).2 = processed w
    ∧ match (article_to_pdf env title url out w).1 with
      | Ret true =>
          ∃ html content pdf,
            html ≠ [] ∧ content ≠ []
            ∧ evs = [(cur w, EvFetchUrl url (Ret (Some html)));
                     (cur w, EvExtract html (Ret (Some content)));
                     (cur w, EvWritePdf (page env content) url out (Ret pdf))]
            ∧ fs (article_to_pdf env title url out w).2
              = <[out := File pdf]> (fs w)
      | Ret false =>
          fs (article_to_pdf env title url out w).2 = fs w
          ∧ ((∃ r, falsy r = true
                   ∧ evs = [(cur w, EvFetchUrl url (Ret r));
                            (cur w, log_no_html url)])
             ∨ (∃ html r, html ≠ [] ∧ falsy r = true
                   ∧ evs = [(cur w, EvFetchUrl url (Ret (Some html)));
                            (cur w, EvExtract html (Ret r));
                            (cur w, log_no_content url)]))
      | Raise e =>
          fs (article_to_pdf env title url out w).2 = fs w
          ∧ (evs = [(cur w, EvFetchUrl url (Raise e))]
             ∨ (∃ html, html ≠ []
                   ∧ evs = [(cur w, EvFetchUrl url (Ret (Some html)));
                            (cur w, EvExtract html (Raise e))])
             ∨ (∃ html content, html ≠ [] ∧ content ≠ []
                   ∧ evs = [(cur w, EvFetchUrl url (Ret (Some html)));
                            (cur w, EvExtract html (Ret (Some content)));
                            (cur w, EvWritePdf (page env content) url out
                                      (Raise e))]))
      end.
Proof.
  destruct (article_to_pdf env title url out w) as [r w'] eqn:E.
  unfold article_to_pdf, call, ask, of_result, log_warning, emit, set_fs,
    falsy, bind, ret in E.
  simpl in E.
  repeat (case_match; simplify_eq/=).
  all: rewrite <- ?app_assoc; simpl.
  all: eexists; (split; [reflexivity|]); (split; [reflexivity|]).
  all: try (split; [reflexivity|]).
  all: try solve [left; eexists; split_and!; [..|reflexivity]; done].
  all: try solve [right; eexists _, _; split_and!; [..|reflexivity]; done].
  all: try solve [by left].
  all: try solve [right; left; eexists; split_and!; [..|reflexivity]; done].
  all: try solve [right; right; eexists _, _; split_and!; [..|reflexivity];
                  done].
  all: eexists _, _, _; split_and!; [..|reflexivity|reflexivity]; done.
Qed.

(** X20: the ways [upload_to_remarkable] can end.  It runs [rmapi mkdir]
    and then [rmapi put --force], and its answer is the exit status of the
    put alone: whatever the mkdir returned is ignored.  A put that
    fails is logged with its output.  The function writes no file and
    leaves the ledger alone. *)
Theorem upload_to_remarkable_outcomes (pdf_path folder : str) (w : state) :
  ∃ evs,
    trace (upload_to_remarkable env pdf_path folder w).2 = trace w ++ evs
    ∧ fs (upload_to_remarkable env pdf_path folder w).2 = fs w
    ∧ processed (upload_to_remarkable env pdf_path folder w).2 = processed w
    ∧ match (upload_to_remarkable env pdf_path folder w).1 with
      | Ret true =>
          ∃ c1 c2,
            returncode c2 = 0%Z
            ∧ evs = [(cur w, EvRun (mkdir_argv folder) (Ret c1));
                     (cur w, EvRun (put_argv pdf_path folder) (Ret c2))]
      | Ret false =>
          ∃ c1 c2,
            returncode c2 ≠ 0%Z
            ∧ evs = [(cur w, EvRun (mkdir_argv folder) (Ret c1));
                     (cur w, EvRun (put_argv pdf_path folder) (Ret c2));
                     (cur w, log_put_failed c2)]
      | Raise e =>
          evs = [(cur w, EvRun (mkdir_argv folder) (Raise e))]
          ∨ ∃ c1, evs = [(cur w, EvRun (mkdir_argv folder) (Ret c1));
                         (cur w, EvRun (put_argv pdf_path folder) (Raise e))]
      end.
Proof.
  destruct (upload_to_remarkable env pdf_path folder w) as [r w'] eqn:E.
  unfold upload_to_remarkable, subprocess_run, call, ask, of_result,
    log_error, emit, bind, ret in E.
  simpl in E.
  repeat (case_match; simplify_eq/=).
  all: rewrite <- ?app_assoc; simpl.
  all: eexists; (split; [reflexivity|]); (split; [reflexivity|]);
    (split; [reflexivity|]).
  all: try solve [by left].
  all: try solve [right; by eexists].
  all: eexists _, _; (split; [|reflexivity]).
  all: match goal with
       | H : bool_decide _ = true |- _ => by apply bool_decide_eq_true in H
       | H : bool_decide _ = false |- _ =>
           apply bool_decide_eq_false in H; by apply dec_stable in H
       end.
Qed.

End Stages.

(** ** A turn of the loop, stage by stage *)

Section Turn.

Context (env : Env) (cfg : config) (tmpdir : str).

#[local] Opaque lit INSTAPAPER_API HTML_TEMPLATE_format EREADER_CSS
  normalize_graphic sanitize_filename Py.path_join Py.parent.

Ltac unfold_turn :=
  unfold main_item, article_to_pdf, upload_to_remarkable, save_processed,
    write_text, mkdir_parents, setitem, subprocess_run, call, ask, of_result,
    try_except, bind, set_cur, log_info, log_warning, log_error,
    log_exception, emit, ret, raise, set_fs, set_processed, get_processed,
    now_iso, falsy in *.

(** X21: the outside calls of a turn are an initial part of the chain
    fetch, extraction, rendering, [rmapi mkdir], [rmapi put]: each stage
    runs at most once, in this order, and only when all the stages
    before it have run; the renderer writes to the very path that is then
    uploaded, inside the temporary directory, and the upload goes to the
    configured folder.  Every event of the turn carries its bookmark. *)
Theorem main_item_pipeline (b : bookmark) (w : state) :
  ∃ evs,
    trace (main_item env cfg tmpdir b w).2
    = trace w ++ (Some b, log_processing b) :: evs
    ∧ Forall (λ te, te.1 = Some b) evs
    ∧ item_calls evs `prefix_of` stages env cfg tmpdir b (clock w).
Proof.
  destruct (main_item env cfg tmpdir b w) as [r w'] eqn:E.
  unfold stages, pdf_path_of, page, mkdir_argv.
  unfold_turn. simpl in E.
  repeat (case_match; simplify_eq/=).
  all: rewrite <- ?app_assoc; simpl.
  all: eexists; (split; [reflexivity|]).
  all: (split; [repeat constructor|]).
  all: unfold item_calls; simpl.
  all: repeat match goal with
              | H : ?x = _ |- context [?x] => rewrite H
              end.
  all: by eexists.
Qed.

End Turn.

(** ** What a run does to the file system *)

Section Files.

Context (env : Env) (cfg : config) (tmpdir : str).

#[local] Opaque lit INSTAPAPER_API HTML_TEMPLATE_format EREADER_CSS
  normalize_graphic sanitize_filename Py.path_join Py.parent.

Ltac unfold_turn :=
  unfold main_item, article_to_pdf, upload_to_remarkable, save_processed,
    write_text, mkdir_parents, setitem, subprocess_run, call, ask, of_result,
    try_except, bind, set_cur, log_info, log_warning, log_error,
    log_exception, emit, ret, raise, set_fs, set_processed, get_processed,
    now_iso, falsy in *.




End Files.

Section RunFiles.

Context (env : Env) (fs0 : gmap str node).
Context (cfg : config) (bookmarks : list bookmark) (w1 : state).

Hypothesis Hlist : main_listing env (boot fs0) = (Ret (cfg, bookmarks), w1).

Local Abbreviation final := (main env (boot fs0)).2.
Local Abbreviation dir := (mkdtemp env (clock w1) (lit "instapaper_")).



Lemma listed_state : fs w1 = fs0 ∧ processed w1 = ∅ ∧ cur w1 = None.
Proof.
  destruct (main_listing_run env (boot fs0)) as (evs & r & t & Hrun & _).
  rewrite Hlist in Hrun. by injection Hrun as <- ->.
Qed.






End RunFiles.














(** ** The library finder *)

(** X25: the replacement finder extends the original one.  Whatever the
    original finds is returned as it is; only when the original finds
    nothing is the Homebrew directory searched, and then the answer is the
    path [/opt/homebrew/lib/lib<name>.dylib], given only if something
    exists there; otherwise nothing is found. *)
Theorem find_library_brew_extends (orig : str → option str)
        (path_exists : str → bool) (name : str) :
  let candidate := lit "/opt/homebrew/lib/lib" ++ name ++ lit ".dylib" in
  _find_library_brew orig path_exists name
  = match orig name with
    | Some (c :: r) => Some (c :: r)
    | _ => if path_exists candidate then Some candidate else None
    end.
Proof.
  intros candidate. unfold _find_library_brew.
  assert (Py.path_join _brew_lib (lit "lib" ++ name ++ lit ".dylib")
          = candidate) as ->.
  { unfold Py.path_join, candidate.
    change (lit "lib" ++ name ++ lit ".dylib")
      with (108 :: 105 :: 98 :: name ++ lit ".dylib").
    change (Py.startswith (lit "/") (108 :: 105 :: 98 :: name ++ lit ".dylib"))
      with false.
    cbv iota.
    assert (bool_decide (_brew_lib = []) = false) as -> by done.
    assert (bool_decide (last _brew_lib = Some 47) = false) as -> by done.
    done. }
  by destruct (orig name) as [[|c r]|].
Qed.

(** ** Markup without image tags *)

Lemma graphic_rewrite_id (s t : str) :
  graphic_rewrite s t →
  ¬ occurs OPEN_GRAPHIC s → ¬ occurs CLOSE_GRAPHIC s → t = s.
Proof.
  induction 1 as [|c s t _ IH|s t _ _|s t _ _]; intros Ho Hc; [done|..].
  - f_equal. apply IH.
    + intros (pre & post & ->). apply Ho. by exists (c :: pre), post.
    + intros (pre & post & ->). apply Hc. by exists (c :: pre), post.
  - destruct Ho. by exists [], s.
  - destruct Hc. by exists [], s.
Qed.

(** X26: markup in which neither the opening [<graphic] nor the closing
    tag of [graphic] occurs goes through the normalisation unchanged. *)
Theorem normalize_graphic_passthrough (env : Env) (content : str) :
  ¬ occurs OPEN_GRAPHIC content → ¬ occurs CLOSE_GRAPHIC content →
  normalize_graphic env content = content.
Proof.
  intros Ho Hc. apply graphic_rewrite_id; [|done..].
  unfold normalize_graphic.
  eapply rewrite_compose; apply re_sub_literal_rewrite.
Qed.

Lemma no_angle_no_occurrence (p s : str) :
  head p = Some 60 → 60 ∉ s → ¬ occurs p s.
Proof.
  intros Hp Hs (pre & post & ->). destruct p as [|c p]; [done|].
  injection Hp as ->. apply Hs, elem_of_app. right. by left.
Qed.

Lemma normalize_graphic_passthrough_witness :
  ¬ occurs OPEN_GRAPHIC (lit "a graphic novel")
  ∧ ¬ occurs CLOSE_GRAPHIC (lit "a graphic novel")
  ∧ normalize_graphic Demo.env (lit "a graphic novel") = lit "a graphic novel".
Proof.
  assert (60 ∉ lit "a graphic novel") as H.
  { vm_compute. intros H.
    repeat (apply elem_of_cons in H as [H|H]; [discriminate H|]).
    by apply elem_of_nil in H. }
  assert (¬ occurs OPEN_GRAPHIC (lit "a graphic novel")) as Ho
    by (by apply no_angle_no_occurrence).
  assert (¬ occurs CLOSE_GRAPHIC (lit "a graphic novel")) as Hc
    by (by apply no_angle_no_occurrence).
  split; [exact Ho|]. split; [exact Hc|].
  exact (normalize_graphic_passthrough Demo.env _ Ho Hc).
Defined.

(** ** A ledger that cannot be read *)

(** X27: when something is listed and the ledger cannot be loaded (the
    file is not valid JSON, or the path is a directory), [main] ends with
    the error of the load, which nothing catches: no temporary directory
    is made, no item is touched, and the state is the one the listing
    left. *)
Theorem unreadable_ledger_aborts (env : Env) (fs0 : gmap str node)
        (cfg : config) (bookmarks : list bookmark) (w1 : state) (e : exn) :
  main_listing env (boot fs0) = (Ret (cfg, bookmarks), w1) →
  bookmarks ≠ [] →
  (load_processed env (processed_log cfg) w1).1 = Raise e →
  main env (boot fs0) = (Raise e, w1).
Proof.
  intros Hlist Hb Hload.
  pose proof (load_processed_state env (processed_log cfg) w1) as Hst.
  unfold main. unfold bind at 1. rewrite Hlist.
  rewrite bool_decide_false by done.
  unfold main_batch. unfold bind at 1.
  destruct (load_processed env (processed_log cfg) w1) as [r w'].
  simpl in *. by subst.
Qed.

Lemma unreadable_ledger_aborts_witness :
  main_listing Demo.env_corrupt (boot Demo.fs0)
  = (Ret (Demo.cfg, [Demo.b1; Demo.b2; Demo.b3]), Demo.listed_state)
  ∧ [Demo.b1; Demo.b2; Demo.b3] ≠ []
  ∧ (load_processed Demo.env_corrupt (processed_log Demo.cfg)
       Demo.listed_state).1 = Raise (Exception "JSONDecodeError")
  ∧ main Demo.env_corrupt (boot Demo.fs0)
    = (Raise (Exception "JSONDecodeError"), Demo.listed_state).
Proof.
  assert (main_listing Demo.env_corrupt (boot Demo.fs0)
          = (Ret (Demo.cfg, [Demo.b1; Demo.b2; Demo.b3]), Demo.listed_state))
    as Hl by (vm_compute; reflexivity).
  assert ([Demo.b1; Demo.b2; Demo.b3] ≠ []) as Hb by discriminate.
  assert ((load_processed Demo.env_corrupt (processed_log Demo.cfg)
             Demo.listed_state).1 = Raise (Exception "JSONDecodeError")) as Hr
    by (vm_compute; reflexivity).
  split; [exact Hl|]. split; [exact Hb|]. split; [exact Hr|].
  exact (unreadable_ledger_aborts Demo.env_corrupt Demo.fs0 Demo.cfg
           [Demo.b1; Demo.b2; Demo.b3] Demo.listed_state _ Hl Hb Hr).
Defined.

